(** * Compound wallet risk scoring: a shallow embedding of
      [compound_risk_scorer.py] and the properties of its scoring pipeline.

    Conventions of the embedding.
    - Python [int] values are [Z]; Python [float] values (amounts, ratios,
      frequencies, the samples of the random stream) are exact rationals [Q],
      and float literals such as [0.9] are the rationals they denote.
    - [datetime] values are [Z] microseconds; [timedelta(days=k)] is
      [k * 86_400_000_000] microseconds and [.days] is the floor division by
      that constant.
    - [datetime.now()] is an explicit argument [now], the anchor instant;
      the time that passes while a batch runs is not modelled.
    - numpy's global generator is an explicit state threaded through the
      simulator; its samplers are the operations of the class [NumpyRandom].
    - A raised exception is the [Raise] constructor of [result].
    - Where a statement depends on rounding or overflow, the code is taken
      again on IEEE doubles ([Float64]), not on rationals. *)

From Stdlib Require Import ZArith QArith Qround List String Ascii Bool Lia.
From Stdlib Require Import DecimalString SpecFloat.
Import ListNotations.

Local Open Scope Z_scope.

(** ** Python helpers *)

Module Py.

(** [a > b] and [a < b] on floats, as booleans. *)
Definition Qgtb (a b : Q) : bool := negb (Qle_bool a b).
Definition Qltb (a b : Q) : bool := negb (Qle_bool b a).

(** [max(a, 1)]-style builtin on two floats: Python returns the first
    argument unless the second is strictly greater. *)
Definition max2 (a b : Q) : Q := if Qltb a b then b else a.

(** [sum(l)]: starts from [0] and adds from the left. *)
Definition sum (l : list Q) : Q := fold_left Qplus l 0%Q.

(** [len(l)] as an [int]. *)
Definition len {A} (l : list A) : Z := Z.of_nat (List.length l).

(** [min(l)] and [max(l)] on a non-empty list of ints, given as head and
    tail; ties keep the earlier element, which is the same number. *)
Definition min_list (x : Z) (l : list Z) : Z := fold_left Z.min l x.
Definition max_list (x : Z) (l : list Z) : Z := fold_left Z.max l x.

(** [str(n)] / an f-string field for an [int]. *)
Definition str_int (n : Z) : string := NilZero.string_of_int (Z.to_int n).

(** ["sep".join(l)]. *)
Definition join (sep : string) (l : list string) : string :=
  String.concat sep l.

End Py.

(** ** The feature set

    The dictionary built by [extract_features], one field per key. *)

Record features : Type := mkFeatures {
  total_transactions : Z;
  liquidation_count : Z;
  account_age_days : Z;
  days_since_last_activity : Z;
  activity_frequency : Q;
  supply_ratio : Q;
  borrow_ratio : Q;
  repay_ratio : Q;
  total_supply_volume : Q;
  total_borrow_volume : Q;
  total_repay_volume : Q;
  repayment_ratio : Q;
  asset_diversity : Z;
  volatile_asset_ratio : Q;
  active_positions : Z;
  current_utilization : Q;
  avg_liquidation_amount : Q;
  total_liquidated_value : Q;
  days_since_last_liquidation : Z
}.

(** [features['liquidation_count'] = k], every other key unchanged. *)
Definition set_liquidation_count (f : features) (k : Z) : features :=
  mkFeatures
    (total_transactions f) k (account_age_days f)
    (days_since_last_activity f) (activity_frequency f) (supply_ratio f)
    (borrow_ratio f) (repay_ratio f) (total_supply_volume f)
    (total_borrow_volume f) (total_repay_volume f) (repayment_ratio f)
    (asset_diversity f) (volatile_asset_ratio f) (active_positions f)
    (current_utilization f) (avg_liquidation_amount f)
    (total_liquidated_value f) (days_since_last_liquidation f).

(** ** The risk scorer *)

(** [self.risk_weights], set in [__init__]. *)
Module risk_weights.
Definition liquidation_penalty : Z := 200.
Definition health_factor_penalty : Z := 150.
Definition volatility_penalty : Z := 100.
Definition frequency_bonus : Z := 50.
Definition repayment_bonus : Z := 100.
Definition diversification_bonus : Z := 75.
End risk_weights.

(** The value of [base_score] just before the clamp of
    [calculate_risk_score]: each [if/elif] of the source is one summand. *)
Definition base_score (f : features) : Z :=
  let s := 500 in
  let s := s - liquidation_count f * risk_weights.liquidation_penalty in
  let s :=
    if days_since_last_liquidation f <? 30 then s - 100
    else if days_since_last_liquidation f <? 90 then s - 50
    else s in
  let s :=
    if Py.Qgtb (repayment_ratio f) (9 # 10) then s + risk_weights.repayment_bonus
    else if Py.Qltb (repayment_ratio f) (5 # 10) then s - risk_weights.repayment_bonus
    else s in
  let s :=
    if Py.Qgtb (current_utilization f) (8 # 10) then s - 150
    else if Py.Qgtb (current_utilization f) (6 # 10) then s - 75
    else s in
  let s :=
    if Py.Qgtb (activity_frequency f) 2 then s + risk_weights.frequency_bonus
    else if Py.Qltb (activity_frequency f) (5 # 10) then s - 50
    else s in
  let s :=
    if asset_diversity f >=? 3 then s + risk_weights.diversification_bonus
    else if asset_diversity f =? 1 then s - 25
    else s in
  let s :=
    if Py.Qgtb (volatile_asset_ratio f) (7 # 10)
    then s - risk_weights.volatility_penalty
    else s in
  let s :=
    if account_age_days f >? 365 then s + 50
    else if account_age_days f <? 30 then s - 50
    else s in
  let s :=
    if days_since_last_activity f <? 7 then s + 25
    else if days_since_last_activity f >? 90 then s - 75
    else s in
  s.

(** [calculate_risk_score]: [int(max(0, min(1000, base_score)))]. *)
Definition calculate_risk_score (f : features) : Z :=
  Z.max 0 (Z.min 1000 (base_score f)).

(** ** The explanation generator *)

(** [explanations.append(c)] when [b] holds. *)
Definition append_if (b : bool) (c : string) (l : list string) : list string :=
  if b then l ++ [c] else l.

Definition explanations (f : features) : list string :=
  let l := [] in
  let l :=
    append_if (liquidation_count f >? 0)
      ("Liquidated " ++ Py.str_int (liquidation_count f) ++ " time(s)") l in
  let l :=
    if Py.Qgtb (repayment_ratio f) (9 # 10)
    then l ++ ["Excellent repayment history"%string]
    else if Py.Qltb (repayment_ratio f) (5 # 10)
    then l ++ ["Poor repayment history"%string]
    else l in
  let l :=
    append_if (Py.Qgtb (current_utilization f) (8 # 10))
      "High current utilization" l in
  let l :=
    if Py.Qgtb (activity_frequency f) 2 then l ++ ["Active user"%string]
    else if Py.Qltb (activity_frequency f) (5 # 10)
    then l ++ ["Inactive user"%string]
    else l in
  let l :=
    append_if (asset_diversity f >=? 3) "Well-diversified portfolio" l in
  l.

(** [generate_risk_explanation(features, score)]. *)
Definition generate_risk_explanation (f : features) (score : Z) : string :=
  match explanations f with
  | [] => "Standard risk profile"
  | l => Py.join "; " l
  end.

(** ** Exceptions

    An [exn] is an instance of Python's [Exception], which is what
    [except Exception] catches. What is not one ([KeyboardInterrupt],
    [SystemExit]) is not modelled. *)

Inductive exn : Type :=
| ValueError
| OtherException (name : string).

Inductive result (A : Type) : Type :=
| Ok (a : A)
| Raise (e : exn).
Arguments Ok {A} a.
Arguments Raise {A} e.

Definition is_raise {A} (r : result A) : bool :=
  match r with Ok _ => false | Raise _ => true end.

(** ** [int(s, 16)] and the slice [s[-8:]] *)

Module PyStr.

(** Characters that [int()] strips from both ends of a [str]. A character
    is a code point below 256. The ASCII ones that are stripped are tab to
    carriage return and the space; the separators 28 to 31 are not. Of the
    others, [int()] turns the two that are Unicode white space, U+0085 and
    U+00A0, into spaces first. Code points from 256 on (other Unicode white
    space, the digits of other scripts) are outside the model. *)
Definition is_space (c : ascii) : bool :=
  let n := nat_of_ascii c in
  ((9 <=? n) && (n <=? 13) || (n =? 32) || (n =? 133) || (n =? 160))%nat.

Definition hex_digit (c : ascii) : option Z :=
  let n := Z.of_nat (nat_of_ascii c) in
  if (48 <=? n) && (n <=? 57) then Some (n - 48)
  else if (97 <=? n) && (n <=? 102) then Some (n - 87)
  else if (65 <=? n) && (n <=? 70) then Some (n - 55)
  else None.

Definition is_hex (c : ascii) : bool :=
  match hex_digit c with Some _ => true | None => false end.

Fixpoint lstrip (l : list ascii) : list ascii :=
  match l with
  | c :: r => if is_space c then lstrip r else l
  | [] => []
  end.

Definition strip (l : list ascii) : list ascii :=
  lstrip (rev (lstrip (rev l))).

(** Digits with single underscores between them; [prev_us] records that
    the previous character was an underscore. *)
Fixpoint digits16 (prev_us : bool) (acc : Z) (l : list ascii) : option Z :=
  match l with
  | [] => if prev_us then None else Some acc
  | c :: r =>
      if Ascii.eqb c "_"%char then
        if prev_us then None else digits16 true acc r
      else
        match hex_digit c with
        | Some d => digits16 false (16 * acc + d) r
        | None => None
        end
  end.

(** The digit part: not empty and not starting with an underscore. *)
Definition body16 (l : list ascii) : option Z :=
  match l with
  | [] => None
  | c :: _ => if Ascii.eqb c "_"%char then None else digits16 false 0 l
  end.

(** After the sign: an optional [0x] / [0X] prefix, which may be followed by
    one underscore. *)
Definition unsigned16 (l : list ascii) : option Z :=
  match l with
  | z :: x :: r =>
      if Ascii.eqb z "0"%char
         && (Ascii.eqb x "x"%char || Ascii.eqb x "X"%char)
      then
        match r with
        | u :: r' => if Ascii.eqb u "_"%char then body16 r' else body16 r
        | [] => None
        end
      else body16 l
  | _ => body16 l
  end.

Definition signed16 (l : list ascii) : option Z :=
  match l with
  | c :: r =>
      if Ascii.eqb c "+"%char then unsigned16 r
      else if Ascii.eqb c "-"%char then option_map Z.opp (unsigned16 r)
      else unsigned16 l
  | [] => unsigned16 l
  end.

(** [int(s, 16)]: [ValueError] on a literal that is not well formed. *)
Definition int16 (s : string) : result Z :=
  match signed16 (strip (list_ascii_of_string s)) with
  | Some n => Ok n
  | None => Raise ValueError
  end.

(** The plain base-16 value of a run of hex digits. *)
Definition hex_value (l : list ascii) : Z :=
  fold_left (fun acc c => 16 * acc + match hex_digit c with Some d => d | None => 0 end) l 0.

(** [s[-n:]]: the last [n] characters, or all of [s] when it is shorter. *)
Definition suffix (n : nat) (s : string) : string :=
  let l := list_ascii_of_string s in
  string_of_list_ascii (skipn (List.length l - n) l).

(** [s] ends in [n] hex characters. *)
Definition ends_in_hex (n : nat) (s : string) : bool :=
  (n <=? String.length s)%nat
  && forallb is_hex (list_ascii_of_string (suffix n s)).

End PyStr.

(** ** Activity records *)

Inductive tx_kind : Type := supply | borrow | repay | withdraw.
Inductive asset : Type := ETH | DAI | USDC | USDT | WBTC.

Definition tx_kind_eqb (a b : tx_kind) : bool :=
  match a, b with
  | supply, supply | borrow, borrow | repay, repay | withdraw, withdraw => true
  | _, _ => false
  end.

Definition asset_eq_dec (a b : asset) : {a = b} + {a <> b}.
Proof. decide equality. Defined.

(** Microseconds in a day: [timedelta(days=1)]. *)
Definition day_us : Z := 86400000000.

(** [timedelta(days=k)] and [(t).days]. *)
Definition timedelta_days (k : Z) : Z := k * day_us.
Definition days_of (delta : Z) : Z := delta / day_us.

Record transaction : Type := mkTx {
  tx_timestamp : Z;
  tx_type : tx_kind;
  tx_asset : asset;
  tx_amount : Q;
  tx_hash : string
}.

Record liquidation : Type := mkLiq {
  liq_timestamp : Z;
  liquidated_amount : Q;
  collateral_seized : Q;
  liq_asset : asset
}.

Record position : Type := mkPos {
  supplied : Q;
  borrowed : Q
}.

(** The dictionary returned by [_simulate_compound_data]. [current_positions]
    keeps the insertion order of the Python dict. *)
Record wallet_data : Type := mkWallet {
  wallet_address : string;
  transactions : list transaction;
  liquidations : list liquidation;
  current_positions : list (asset * position);
  first_interaction : option Z;
  last_interaction : option Z
}.

(** ** numpy's global random generator

    [rng] is the state of [np.random]; every sampler takes the current state
    and returns its sample with the next state. The samplers are numpy's,
    not this program's, so they are the operations of an interface. *)

Class NumpyRandom : Type := {
  rng : Type;
  (** [np.random.seed(s)]: the state after seeding, whatever it was before *)
  np_seed : Z -> rng;
  (** [np.random.poisson(lam)] *)
  np_poisson : Q -> rng -> Z * rng;
  (** [np.random.randint(low, high)] *)
  np_randint : Z -> Z -> rng -> Z * rng;
  (** [np.random.choice(a, p=p)] for [len(a) = n]: the index of the element
      drawn; [p = None] is the uniform choice *)
  np_choice : nat -> option (list Q) -> rng -> nat * rng;
  (** [np.random.choice(a, size)] for [len(a) = n]: [size] indices *)
  np_choice_many : nat -> nat -> rng -> list nat * rng;
  (** [np.random.lognormal(mean, sigma)] *)
  np_lognormal : Q -> Q -> rng -> Q * rng;
  (** [np.random.random()] *)
  np_random : rng -> Q * rng
}.

(** Code that draws from the global generator. *)
Definition Gen `{NumpyRandom} (A : Type) : Type := rng -> A * rng.

Definition ret `{NumpyRandom} {A} (a : A) : Gen A := fun g => (a, g).

Definition bind `{NumpyRandom} {A B} (c : Gen A) (k : A -> Gen B) : Gen B :=
  fun g => let (a, g') := c g in k a g'.

Declare Scope gen_scope.
Delimit Scope gen_scope with gen.
Notation "x <- c ;; k" := (bind c (fun x => k))
  (at level 61, c at next level, right associativity) : gen_scope.

(** ** The activity simulator *)

Section Simulator.

Context `{NR : NumpyRandom}.
Local Open Scope gen_scope.

Definition tx_kinds : list tx_kind := [supply; borrow; repay; withdraw].
Definition tx_kind_p : list Q := [3 # 10; 25 # 100; 25 # 100; 2 # 10]%Q.

Definition tx_assets : list asset := [ETH; DAI; USDC; USDT; WBTC].
Definition tx_asset_p : list Q := [3 # 10; 25 # 100; 25 # 100; 15 # 100; 5 # 100]%Q.

Definition liq_assets : list asset := [ETH; WBTC; DAI].

Definition hex_chars : list ascii :=
  list_ascii_of_string "0123456789abcdef".

(** [f"0x{''.join(np.random.choice(list('0123456789abcdef'), 64))}"] *)
Definition gen_tx_hash : Gen string :=
  idx <- np_choice_many (List.length hex_chars) 64 ;;
  ret ("0x" ++ string_of_list_ascii
                 (map (fun i => nth i hex_chars "0"%char) idx))%string.

(** One iteration of the transaction loop. *)
Definition gen_transaction (current_time : Z) : Gen transaction :=
  d <- np_randint 0 180 ;;
  let tx_time := current_time - timedelta_days d in
  ty <- np_choice (List.length tx_kinds) (Some tx_kind_p) ;;
  a <- np_choice (List.length tx_assets) (Some tx_asset_p) ;;
  amount <- np_lognormal 7 (15 # 10) ;;
  h <- gen_tx_hash ;;
  ret (mkTx tx_time (nth ty tx_kinds supply) (nth a tx_assets ETH) amount h).

(** [for i in range(n): transactions.append(...)] *)
Fixpoint gen_transactions (n : nat) (current_time : Z) : Gen (list transaction) :=
  match n with
  | O => ret []
  | S n' =>
      tx <- gen_transaction current_time ;;
      rest <- gen_transactions n' current_time ;;
      ret (tx :: rest)
  end.

(** One iteration of the liquidation loop; the dictionary literal evaluates
    its values in the order written. *)
Definition gen_liquidation (current_time : Z) : Gen liquidation :=
  d <- np_randint 0 180 ;;
  let liq_time := current_time - timedelta_days d in
  la <- np_lognormal 8 1 ;;
  cs <- np_lognormal 8 1 ;;
  a <- np_choice (List.length liq_assets) None ;;
  ret (mkLiq liq_time la cs (nth a liq_assets ETH)).

Fixpoint gen_liquidation_loop (n : nat) (current_time : Z) : Gen (list liquidation) :=
  match n with
  | O => ret []
  | S n' =>
      l <- gen_liquidation current_time ;;
      rest <- gen_liquidation_loop n' current_time ;;
      ret (l :: rest)
  end.

Definition gen_liquidations (current_time : Z) : Gen (list liquidation) :=
  r <- np_random ;;
  if Py.Qltb r (15 # 100) then
    k <- np_poisson 1 ;;
    gen_liquidation_loop (Z.to_nat (k + 1)) current_time
  else ret [].

(** [np.random.lognormal(m, s) if np.random.random() < p else 0]: the
    condition is drawn first. *)
Definition gen_amount_or_zero (m s p : Q) : Gen Q :=
  r <- np_random ;;
  if Py.Qltb r p then np_lognormal m s else ret 0%Q.

Fixpoint gen_positions (assets : list asset) : Gen (list (asset * position)) :=
  match assets with
  | [] => ret []
  | a :: rest =>
      r <- np_random ;;
      if Py.Qltb r (4 # 10) then
        s <- gen_amount_or_zero 6 2 (7 # 10) ;;
        b <- gen_amount_or_zero 5 2 (5 # 10) ;;
        ps <- gen_positions rest ;;
        ret ((a, mkPos s b) :: ps)
      else gen_positions rest
  end.

(** [min([tx['timestamp'] for tx in transactions]) if transactions else None] *)
Definition min_timestamp (txs : list transaction) : option Z :=
  match map tx_timestamp txs with
  | [] => None
  | t :: ts => Some (Py.min_list t ts)
  end.

Definition max_timestamp (txs : list transaction) : option Z :=
  match map tx_timestamp txs with
  | [] => None
  | t :: ts => Some (Py.max_list t ts)
  end.

(** The body of [_simulate_compound_data] after the seeding line. *)
Definition gen_activity (wallet : string) (current_time : Z) : Gen wallet_data :=
  n <- np_poisson 15 ;;
  txs <- gen_transactions (Z.to_nat n) current_time ;;
  liqs <- gen_liquidations current_time ;;
  ps <- gen_positions tx_assets ;;
  ret (mkWallet wallet txs liqs ps (min_timestamp txs) (max_timestamp txs)).

(** The seed passed to [np.random.seed]. *)
Definition wallet_seed (wallet : string) : result Z :=
  match PyStr.int16 (PyStr.suffix 8 wallet) with
  | Ok n => Ok (n mod 2 ^ 32)
  | Raise e => Raise e
  end.

(** [_simulate_compound_data(wallet_address)], run with [g] as the state of
    the global generator. When [int()] raises, the generator is not touched. *)
Definition _simulate_compound_data (wallet : string) (now : Z)
  : Gen (result wallet_data) :=
  fun g =>
    match wallet_seed wallet with
    | Raise e => (Raise e, g)
    | Ok s =>
        let (wd, g') := gen_activity wallet now (np_seed s) in
        (Ok wd, g')
    end.

(** [fetch_wallet_transactions] only logs and delegates. *)
Definition fetch_wallet_transactions (wallet : string) (now : Z)
  : Gen (result wallet_data) :=
  _simulate_compound_data wallet now.

End Simulator.

(** ** The feature extractor *)

Definition count_kind (k : tx_kind) (txs : list transaction) : Z :=
  Py.len (filter (fun tx => tx_kind_eqb (tx_type tx) k) txs).

(** [sum([tx['amount'] for tx in transactions if tx['type'] == k])] *)
Definition volume_of (k : tx_kind) (txs : list transaction) : Q :=
  Py.sum (map tx_amount (filter (fun tx => tx_kind_eqb (tx_type tx) k) txs)).

(** [tx['asset'] in ['ETH', 'WBTC']] *)
Definition is_volatile (a : asset) : bool :=
  match a with ETH | WBTC => true | _ => false end.

(** [v['supplied'] > 0 or v['borrowed'] > 0] *)
Definition is_active (p : position) : bool :=
  Py.Qgtb (supplied p) 0 || Py.Qgtb (borrowed p) 0.

(** [sum([v['supplied'] for v in positions.values()])] and the same for
    [borrowed]. *)
Definition total_supplied (ps : list (asset * position)) : Q :=
  Py.sum (map (fun kv => supplied (snd kv)) ps).
Definition total_borrowed (ps : list (asset * position)) : Q :=
  Py.sum (map (fun kv => borrowed (snd kv)) ps).

(** [total_borrowed / max(total_supplied, 1)] *)
Definition utilization (ps : list (asset * position)) : Q :=
  (total_borrowed ps / Py.max2 (total_supplied ps) 1)%Q.

(** [extract_features(wallet_data)], with [now] for [datetime.now()]. *)
Definition extract_features (wd : wallet_data) (now : Z) : features :=
  let txs := transactions wd in
  let liqs := liquidations wd in
  let ps := current_positions wd in
  let n := Py.len txs in
  let '(age, last_days, freq) :=
    match map tx_timestamp txs with
    | t :: ts =>
        let first_tx := Py.min_list t ts in
        let last_tx := Py.max_list t ts in
        let age := days_of (now - first_tx) in
        (age, days_of (now - last_tx),
         (inject_Z n / inject_Z (Z.max age 1) * 30)%Q)
    | [] => (0, 999, 0%Q)
    end in
  let den := inject_Z (Z.max n 1) in
  let total_supply := volume_of supply txs in
  let total_borrow := volume_of borrow txs in
  let total_repay := volume_of repay txs in
  let volatile_tx_count :=
    Py.len (filter (fun tx => is_volatile (tx_asset tx)) txs) in
  let '(avg_liq, total_liq, liq_days) :=
    match liqs with
    | l :: ls =>
        let amounts := map liquidated_amount liqs in
        ((Py.sum amounts / inject_Z (Py.len liqs))%Q,
         Py.sum amounts,
         Py.min_list (days_of (now - liq_timestamp l))
                     (map (fun q => days_of (now - liq_timestamp q)) ls))
    | [] => (0%Q, 0%Q, 999)
    end in
  {| total_transactions := n;
     liquidation_count := Py.len liqs;
     account_age_days := age;
     days_since_last_activity := last_days;
     activity_frequency := freq;
     supply_ratio := (inject_Z (count_kind supply txs) / den)%Q;
     borrow_ratio := (inject_Z (count_kind borrow txs) / den)%Q;
     repay_ratio := (inject_Z (count_kind repay txs) / den)%Q;
     total_supply_volume := total_supply;
     total_borrow_volume := total_borrow;
     total_repay_volume := total_repay;
     repayment_ratio := (total_repay / Py.max2 total_borrow 1)%Q;
     asset_diversity := Py.len (nodup asset_eq_dec (map tx_asset txs));
     volatile_asset_ratio := (inject_Z volatile_tx_count / den)%Q;
     active_positions := Py.len (filter (fun kv => is_active (snd kv)) ps);
     current_utilization := utilization ps;
     avg_liquidation_amount := avg_liq;
     total_liquidated_value := total_liq;
     days_since_last_liquidation := liq_days |}.

(** The alternative that the specification's open question contrasts with
    the code: the floor at 1 applied to every asset's supplied amount before
    summing. The program does not compute this. *)
Definition utilization_floor_per_asset (ps : list (asset * position)) : Q :=
  (total_borrowed ps
   / Py.sum (map (fun kv => Py.max2 (supplied (snd kv)) 1) ps))%Q.

(** ** Batch processing *)

(** One entry of [results]. *)
Record row : Type := mkRow {
  r_wallet_id : string;
  r_score : Z;
  r_explanation : string;
  r_liquidation_count : Z;
  r_repayment_ratio : Q;
  r_current_utilization : Q;
  r_activity_frequency : Q;
  r_asset_diversity : Z
}.

(** [round(x, nd)]: to the nearest multiple of [10^-nd], ties to even. *)
Definition round (x : Q) (nd : nat) : Q :=
  let scale := inject_Z (10 ^ Z.of_nat nd) in
  let m := (x * scale)%Q in
  let fl := Qfloor m in
  let frac := (m - inject_Z fl)%Q in
  let up :=
    if Py.Qltb frac (1 # 2) then false
    else if Py.Qgtb frac (1 # 2) then true
    else Z.odd fl in
  (inject_Z (if up then fl + 1 else fl) / scale)%Q.

(** The row appended by the [except] branch. *)
Definition error_row (wallet : string) : row :=
  {| r_wallet_id := wallet;
     r_score := 500;
     r_explanation := "Error in processing";
     r_liquidation_count := 0;
     r_repayment_ratio := 0;
     r_current_utilization := 0;
     r_activity_frequency := 0;
     r_asset_diversity := 0 |}.

(** The row appended at the end of the [try] body. *)
Definition result_row (wallet : string) (f : features) (score : Z) : row :=
  {| r_wallet_id := wallet;
     r_score := score;
     r_explanation := generate_risk_explanation f score;
     r_liquidation_count := liquidation_count f;
     r_repayment_ratio := round (repayment_ratio f) 3;
     r_current_utilization := round (current_utilization f) 3;
     r_activity_frequency := round (activity_frequency f) 2;
     r_asset_diversity := asset_diversity f |}.

Section Batch.

Context `{NR : NumpyRandom}.

(** The three methods that [process_wallet_list] calls on [self] inside the
    [try]. They are looked up on the object at the call, so a subclass or a
    test double may make any of them raise; [CompoundRiskScorer] below is the
    class as written. *)
Record scorer : Type := mkScorer {
  self_fetch_wallet_transactions : string -> Z -> Gen (result wallet_data);
  self_extract_features : wallet_data -> Z -> result features;
  self_calculate_risk_score : features -> result Z
}.

Definition CompoundRiskScorer : scorer :=
  {| self_fetch_wallet_transactions := fetch_wallet_transactions;
     self_extract_features := fun wd now => Ok (extract_features wd now);
     self_calculate_risk_score := fun f => Ok (calculate_risk_score f) |}.

(** The body of the [try]: the row it appends, or the exception that
    leaves it. *)
Definition try_wallet (self : scorer) (now : Z) (wallet : string)
  : Gen (result row) :=
  fun g =>
    let (r, g') := self_fetch_wallet_transactions self wallet now g in
    match r with
    | Raise e => (Raise e, g')
    | Ok wd =>
        match self_extract_features self wd now with
        | Raise e => (Raise e, g')
        | Ok f =>
            match self_calculate_risk_score self f with
            | Raise e => (Raise e, g')
            | Ok score => (Ok (result_row wallet f score), g')
            end
        end
    end.

(** One iteration of the loop: [try ... except Exception]. *)
Definition process_wallet (self : scorer) (now : Z) (wallet : string)
  : Gen row :=
  fun g =>
    let (r, g') := try_wallet self now wallet g in
    match r with
    | Ok rw => (rw, g')
    | Raise _ => (error_row wallet, g')
    end.

(** The loop of [process_wallet_list] over the [wallet_id] column; the value
    is [results], in the order of the appends. *)
Fixpoint process_wallet_list (self : scorer) (now : Z) (wallets : list string)
  : Gen (list row) :=
  fun g =>
    match wallets with
    | [] => ([], g)
    | w :: ws =>
        let (rw, g') := process_wallet self now w g in
        let (rws, g'') := process_wallet_list self now ws g' in
        (rw :: rws, g'')
    end.

(** The methods of [self] do not depend on the state in which the global
    generator is found: each one that draws from it seeds it first. *)
Definition reseeds (self : scorer) : Prop :=
  forall wallet now g1 g2,
    fst (self_fetch_wallet_transactions self wallet now g1)
    = fst (self_fetch_wallet_transactions self wallet now g2).

(** One of the three stages raises for [wallet]: the simulation, or the
    extraction on the simulated record, or the scoring of its features. *)
Definition stage_raises (self : scorer) (now : Z) (wallet : string) (g : rng)
  : Prop :=
  let fetched := fst (self_fetch_wallet_transactions self wallet now g) in
  (exists e, fetched = Raise e)
  \/ (exists wd e,
        fetched = Ok wd /\ self_extract_features self wd now = Raise e)
  \/ (exists wd f e,
        fetched = Ok wd
        /\ self_extract_features self wd now = Ok f
        /\ self_calculate_risk_score self f = Raise e).

End Batch.

(** ** Named feature sets *)

(** What [extract_features] returns for a record with no transactions, no
    liquidations and no positions. *)
Definition zero_activity_features : features :=
  {| total_transactions := 0;
     liquidation_count := 0;
     account_age_days := 0;
     days_since_last_activity := 999;
     activity_frequency := 0;
     supply_ratio := 0;
     borrow_ratio := 0;
     repay_ratio := 0;
     total_supply_volume := 0;
     total_borrow_volume := 0;
     total_repay_volume := 0;
     repayment_ratio := 0;
     asset_diversity := 0;
     volatile_asset_ratio := 0;
     active_positions := 0;
     current_utilization := 0;
     avg_liquidation_amount := 0;
     total_liquidated_value := 0;
     days_since_last_liquidation := 999 |}.

(** The eight values that the zero-activity scenario lists. *)
Definition zero_activity (f : features) : bool :=
  (total_transactions f =? 0)
  && (liquidation_count f =? 0)
  && (account_age_days f =? 0)
  && (days_since_last_activity f =? 999)
  && Qeq_bool (activity_frequency f) 0
  && Qeq_bool (repayment_ratio f) 0
  && Qeq_bool (current_utilization f) 0
  && (asset_diversity f =? 0).

(** The features other than the two liquidation ones sit where no branch of
    the scorer fires: every band is the [else] of its [if/elif]. *)
Definition neutral_elsewhere (f : features) : bool :=
  negb (Py.Qgtb (repayment_ratio f) (9 # 10))
  && negb (Py.Qltb (repayment_ratio f) (5 # 10))
  && negb (Py.Qgtb (current_utilization f) (6 # 10))
  && negb (Py.Qgtb (activity_frequency f) 2)
  && negb (Py.Qltb (activity_frequency f) (5 # 10))
  && (asset_diversity f <? 3) && negb (asset_diversity f =? 1)
  && negb (Py.Qgtb (volatile_asset_ratio f) (7 # 10))
  && (30 <=? account_age_days f) && (account_age_days f <=? 365)
  && (7 <=? days_since_last_activity f) && (days_since_last_activity f <=? 90).

(** A feature set in every neutral band, with two liquidations, the last
    one ten days ago. *)
Definition two_recent_liquidations : features :=
  {| total_transactions := 6;
     liquidation_count := 2;
     account_age_days := 120;
     days_since_last_activity := 20;
     activity_frequency := 15 # 10;
     supply_ratio := 1 # 2;
     borrow_ratio := 1 # 4;
     repay_ratio := 1 # 4;
     total_supply_volume := 3000;
     total_borrow_volume := 1000;
     total_repay_volume := 700;
     repayment_ratio := 7 # 10;
     asset_diversity := 2;
     volatile_asset_ratio := 1 # 2;
     active_positions := 1;
     current_utilization := 3 # 10;
     avg_liquidation_amount := 2500;
     total_liquidated_value := 5000;
     days_since_last_liquidation := 10 |}.

(** A feature set that earns every bonus and no penalty. *)
Definition best_features : features :=
  {| total_transactions := 40;
     liquidation_count := 0;
     account_age_days := 400;
     days_since_last_activity := 1;
     activity_frequency := 3;
     supply_ratio := 1 # 2;
     borrow_ratio := 1 # 4;
     repay_ratio := 1 # 4;
     total_supply_volume := 9000;
     total_borrow_volume := 1000;
     total_repay_volume := 1000;
     repayment_ratio := 1;
     asset_diversity := 4;
     volatile_asset_ratio := 1 # 4;
     active_positions := 2;
     current_utilization := 1 # 10;
     avg_liquidation_amount := 0;
     total_liquidated_value := 0;
     days_since_last_liquidation := 999 |}.

(** The features that [generate_risk_explanation] reads. *)
Definition same_explained_features (f g : features) : Prop :=
  liquidation_count f = liquidation_count g
  /\ (repayment_ratio f == repayment_ratio g)%Q
  /\ (current_utilization f == current_utilization g)%Q
  /\ (activity_frequency f == activity_frequency g)%Q
  /\ asset_diversity f = asset_diversity g.

(** Two positions that tell the aggregate floor from a per-asset one:
    each supplies a quarter of a unit and borrows one unit. *)
Definition small_positions : list (asset * position) :=
  [(ETH, mkPos (1 # 4) 1); (DAI, mkPos (1 # 4) 1)].

(** ** A concrete generator

    A linear congruential stream standing in for numpy's, small enough to
    run the simulator inside the proof assistant. *)

Module Lcg.

Definition next (g : Z) : Z := (g * 1103515245 + 12345) mod 2 ^ 31.

Fixpoint draws (k : nat) (n : Z) (g : Z) : list nat * Z :=
  match k with
  | O => ([], g)
  | S k' =>
      let (l, g') := draws k' n (next g) in
      (Z.to_nat (g mod n) :: l, g')
  end.

#[export] Instance numpy_random : NumpyRandom :=
  {| rng := Z;
     np_seed := fun s => s;
     np_poisson := fun _ g => (g mod 4, next g);
     np_randint := fun lo hi g => (lo + g mod (hi - lo), next g);
     np_choice := fun n _ g => (Z.to_nat (g mod Z.of_nat n), next g);
     np_choice_many := fun n k g => draws k (Z.of_nat n) g;
     np_lognormal := fun _ _ g => (inject_Z (1 + g mod 5000), next g);
     np_random := fun g => (Qmake (g mod 100) 100, next g) |}.

(** 2026-01-01 00:00:00 UTC, in microseconds. *)
Definition anchor : Z := 1767225600000000.

Definition wallets : list string :=
  ["0x0039f22efb07a647557c7c5d17854cfd6d489ef3"%string;
   "not-a-wallet"%string;
   "0x06b51c6882b27cb05e712185531c1f74996dd988"%string].

End Lcg.

(** ** The adjustments of the scorer, one by one

    What each [if/elif] of [calculate_risk_score] adds to [base_score]. The
    scorer itself is [base_score] above; these are the terms its value is
    proved to split into. *)

Module Adj.

Definition recent_liquidation (f : features) : Z :=
  if days_since_last_liquidation f <? 30 then -100
  else if days_since_last_liquidation f <? 90 then -50
  else 0.

Definition repayment (f : features) : Z :=
  if Py.Qgtb (repayment_ratio f) (9 # 10) then 100
  else if Py.Qltb (repayment_ratio f) (5 # 10) then -100
  else 0.

Definition utilization (f : features) : Z :=
  if Py.Qgtb (current_utilization f) (8 # 10) then -150
  else if Py.Qgtb (current_utilization f) (6 # 10) then -75
  else 0.

Definition frequency (f : features) : Z :=
  if Py.Qgtb (activity_frequency f) 2 then 50
  else if Py.Qltb (activity_frequency f) (5 # 10) then -50
  else 0.

Definition diversification (f : features) : Z :=
  if asset_diversity f >=? 3 then 75
  else if asset_diversity f =? 1 then -25
  else 0.

Definition volatility (f : features) : Z :=
  if Py.Qgtb (volatile_asset_ratio f) (7 # 10) then -100 else 0.

Definition account_age (f : features) : Z :=
  if account_age_days f >? 365 then 50
  else if account_age_days f <? 30 then -50
  else 0.

Definition recent_activity (f : features) : Z :=
  if days_since_last_activity f <? 7 then 25
  else if days_since_last_activity f >? 90 then -75
  else 0.

Definition total (f : features) : Z :=
  recent_liquidation f + repayment f + utilization f + frequency f
  + diversification f + volatility f + account_age f + recent_activity f.

End Adj.

(** ** Writing the two tables

    The end of [process_wallet_list]: the detailed table goes to
    [output_file.replace('.csv', '_detailed.csv')], then the two columns
    [wallet_id] and [score] go to [output_file]. A file system is a map
    from paths to the table last written there; a write succeeds. *)

Module Output.

(** [l.startswith(p)] *)
Fixpoint starts_with (p l : list ascii) : bool :=
  match p, l with
  | [], _ => true
  | _ :: _, [] => false
  | a :: p', b :: l' => Ascii.eqb a b && starts_with p' l'
  end.

(** [old in l]: [old] occurs somewhere in [l]. *)
Fixpoint occurs (old l : list ascii) : bool :=
  starts_with old l
  || match l with
     | [] => false
     | _ :: r => occurs old r
     end.

(** [str.replace(old, new)] for a non-empty [old]: every occurrence, found
    from the left and not overlapping. [skip] counts the characters of an
    occurrence that are still to be passed over. *)
Fixpoint replace_from (old new l : list ascii) (skip : nat) : list ascii :=
  match l with
  | [] => []
  | c :: r =>
      match skip with
      | S k => replace_from old new r k
      | O =>
          if starts_with old l
          then new ++ replace_from old new r (List.length old - 1)
          else c :: replace_from old new r 0
      end
  end.

Definition replace (old new s : string) : string :=
  string_of_list_ascii
    (replace_from (list_ascii_of_string old) (list_ascii_of_string new)
       (list_ascii_of_string s) 0).

(** [output_file.replace('.csv', '_detailed.csv')] *)
Definition detailed_path (output_file : string) : string :=
  replace ".csv" "_detailed.csv" output_file.

Inductive table : Type :=
| Detailed (rows : list row)
| Simple (rows : list (string * Z)).

Definition files : Type := string -> option table.

(** [df.to_csv(path, index=False)] *)
Definition to_csv (t : table) (path : string) (fs : files) : files :=
  fun p => if String.eqb p path then Some t else fs p.

(** [results_df[['wallet_id', 'score']]] *)
Definition simple_results (results : list row) : list (string * Z) :=
  map (fun r => (r_wallet_id r, r_score r)) results.

(** The two writes. [pd.DataFrame([])] has no columns, so for an empty
    [results] the column selection raises [KeyError] after the first
    write. *)
Definition save_results (output_file : string) (results : list row)
  (fs : files) : result unit * files :=
  let fs := to_csv (Detailed results) (detailed_path output_file) fs in
  match results with
  | [] => (Raise (OtherException "KeyError"), fs)
  | _ :: _ => (Ok tt, to_csv (Simple (simple_results results)) output_file fs)
  end.

End Output.

(** A write that can fail. [writable path] says whether the path can be
    opened for writing; [to_csv] raises [OSError] when it cannot (a missing
    directory, no permission) and then leaves the file system as it was. *)
Definition to_csv_or_raise (writable : string -> bool) (t : Output.table)
  (path : string) (fs : Output.files) : result unit * Output.files :=
  if writable path then (Ok tt, Output.to_csv t path fs)
  else (Raise (OtherException "OSError"), fs).

(** The two writes of [Output.save_results], each of which may raise. *)
Definition save_results_or_raise (writable : string -> bool)
  (output_file : string) (results : list row) (fs : Output.files)
  : result unit * Output.files :=
  match to_csv_or_raise writable (Output.Detailed results)
          (Output.detailed_path output_file) fs with
  | (Raise e, fs1) => (Raise e, fs1)
  | (Ok _, fs1) =>
      match results with
      | [] => (Raise (OtherException "KeyError"), fs1)
      | _ :: _ =>
          to_csv_or_raise writable
            (Output.Simple (Output.simple_results results)) output_file fs1
      end
  end.

(** [process_wallet_list] from the loop to its return: the rows, then the
    two writes. Reading [wallet_file] is not modelled; [wallets] is its
    [wallet_id] column. *)
Definition process_wallet_list_and_save `{NumpyRandom} (self : scorer)
  (writable : string -> bool) (now : Z) (wallets : list string)
  (output_file : string) (g : rng) (fs : Output.files)
  : result (list row) * rng * Output.files :=
  let (results, g') := process_wallet_list self now wallets g in
  let (r, fs') := save_results_or_raise writable output_file results fs in
  (match r with Ok _ => Ok results | Raise e => Raise e end, g', fs').

(** ** The console summary

    The three counts that both [main] functions print. *)

Module Summary.

(** [len(results[mask])] for a mask on the [score] column. *)
Definition count (mask : Z -> bool) (results : list row) : Z :=
  Py.len (filter (fun r => mask (r_score r)) results).

Definition high_risk (results : list row) : Z :=
  count (fun s => s <? 300) results.

Definition medium_risk (results : list row) : Z :=
  count (fun s => (s >=? 300) && (s <? 700)) results.

Definition low_risk (results : list row) : Z :=
  count (fun s => s >=? 700) results.

End Summary.

(** ** Moving a record in time

    The record whose every timestamp is [delta] later. No function of the
    program computes it; it states how the pipeline depends on the anchor
    instant. *)

Definition shift_tx (delta : Z) (tx : transaction) : transaction :=
  mkTx (tx_timestamp tx + delta) (tx_type tx) (tx_asset tx) (tx_amount tx)
    (tx_hash tx).

Definition shift_liq (delta : Z) (q : liquidation) : liquidation :=
  mkLiq (liq_timestamp q + delta) (liquidated_amount q) (collateral_seized q)
    (liq_asset q).

Definition shift_wallet (delta : Z) (wd : wallet_data) : wallet_data :=
  mkWallet (wallet_address wd)
    (map (shift_tx delta) (transactions wd))
    (map (shift_liq delta) (liquidations wd))
    (current_positions wd)
    (option_map (fun t => t + delta) (first_interaction wd))
    (option_map (fun t => t + delta) (last_interaction wd)).

(** numpy's contract for [randint(low, high)]: the sample lies in
    [[low, high)]. *)
Definition randint_in_range `{NumpyRandom} : Prop :=
  forall lo hi g, lo < hi ->
    lo <= fst (np_randint lo hi g) < hi.

(** A timestamp is a whole number of days, at most 179, before [now]. *)
Definition in_window (now t : Z) : Prop :=
  exists d, 0 <= d < 180 /\ t = now - timedelta_days d.

(** ** Defaults beside two recent liquidations

    The values the program gives a feature when there is nothing to
    measure: the [else] branches of the extractor (account age 0, 999 days
    since the last activity, frequency 0), the zeros of empty sums and
    counts, and the zeros of the fallback row. *)
Definition defaults_elsewhere (f : features) : bool :=
  (account_age_days f =? 0)
  && ((days_since_last_activity f =? 999)
      || (days_since_last_activity f =? 0))
  && Qeq_bool (activity_frequency f) 0
  && Qeq_bool (repayment_ratio f) 0
  && Qeq_bool (current_utilization f) 0
  && (asset_diversity f =? 0)
  && Qeq_bool (volatile_asset_ratio f) 0.

(** Two liquidations, the last one ten days ago, and the extractor's
    defaults for everything else. *)
Definition two_recent_liquidations_defaults : features :=
  {| total_transactions := 0;
     liquidation_count := 2;
     account_age_days := 0;
     days_since_last_activity := 999;
     activity_frequency := 0;
     supply_ratio := 0;
     borrow_ratio := 0;
     repay_ratio := 0;
     total_supply_volume := 0;
     total_borrow_volume := 0;
     total_repay_volume := 0;
     repayment_ratio := 0;
     asset_diversity := 0;
     volatile_asset_ratio := 0;
     active_positions := 0;
     current_utilization := 0;
     avg_liquidation_amount := 0;
     total_liquidated_value := 0;
     days_since_last_liquidation := 10 |}.

(** ** The utilization feature on IEEE doubles

    Lines 177 to 179 of the extractor with the amounts as binary64 values:
    [spec_float] with 53 bits of precision, the additions and the division
    rounded to nearest even, overflow to infinity, and Python's
    [ZeroDivisionError] for a zero divisor. *)

Module Float64.

Definition float : Type := spec_float.

Definition zero : float := S754_zero false.
(** [1.0] and [0.25] *)
Definition one : float := S754_finite false 4503599627370496 (-52).
Definition quarter : float := S754_finite false 4503599627370496 (-54).
(** [2.0 ** 1023], about [8.99e307] *)
Definition huge : float := S754_finite false 4503599627370496 971.

Definition add : float -> float -> float := SFadd 53 1024.
Definition div : float -> float -> float := SFdiv 53 1024.

(** Neither an infinity nor a NaN. *)
Definition is_finite (x : float) : bool :=
  match x with
  | S754_zero _ | S754_finite _ _ _ => true
  | S754_infinity _ | S754_nan => false
  end.

(** [sum(l)]: from [0], adding from the left. *)
Definition sum (l : list float) : float := fold_left add l zero.

(** [max(a, 1)]: [1] when [1 > a], else [a]; a NaN stays. *)
Definition max1 (a : float) : float := if SFltb a one then one else a.

(** [a / b] *)
Definition truediv (a b : float) : result float :=
  if SFeqb b zero then Raise (OtherException "ZeroDivisionError")
  else Ok (div a b).

Record position : Type := mkPos {
  supplied : float;
  borrowed : float
}.

(** [total_borrowed / max(total_supplied, 1)] *)
Definition current_utilization (ps : list (asset * position))
  : result float :=
  truediv (sum (map (fun kv => borrowed (snd kv)) ps))
          (max1 (sum (map (fun kv => supplied (snd kv)) ps))).

(** The per-asset floor that the program does not compute. *)
Definition utilization_floor_per_asset (ps : list (asset * position))
  : result float :=
  truediv (sum (map (fun kv => borrowed (snd kv)) ps))
          (sum (map (fun kv => max1 (supplied (snd kv))) ps)).

(** Two positions of [2.0 ** 1023] supplied and borrowed: both sums
    overflow. *)
Definition overflowing_positions : list (asset * position) :=
  [(ETH, mkPos huge huge); (DAI, mkPos huge huge)].

(** Two positions supplying [0.25] and borrowing [1.0] each. *)
Definition small_positions : list (asset * position) :=
  [(ETH, mkPos quarter one); (DAI, mkPos quarter one)].

End Float64.

(** * Properties *)

(** ** The scorer *)

Section IfShapes.

Variables (c d : bool) (s a b : Z).

Lemma if_sub_sub :
  (if c then s - a else if d then s - b else s)
  = s + (if c then - a else if d then - b else 0).
Proof. destruct c, d; lia. Qed.

Lemma if_add_sub :
  (if c then s + a else if d then s - b else s)
  = s + (if c then a else if d then - b else 0).
Proof. destruct c, d; lia. Qed.

Lemma if_sub :
  (if c then s - a else s) = s + (if c then - a else 0).
Proof. destruct c; lia. Qed.

End IfShapes.

(** Name the outermost [let] of the left-hand side as a local definition,
    without unfolding it into its uses. *)
Ltac name_let :=
  match goal with
  | |- (let x := ?v in @?body x) = ?r =>
      change (let x := v in body x = r); cbv beta; intro
  end.

(** The sequential updates of [base_score] add up: 500, minus 200 per
    liquidation, plus the eight adjustments. *)
Lemma base_score_split (f : features) :
  base_score f = 500 - 200 * liquidation_count f + Adj.total f.
Proof.
  cbv beta delta [base_score].
  do 10 name_let.
  subst s8; rewrite if_add_sub.
  subst s7; rewrite if_add_sub.
  subst s6; rewrite if_sub.
  subst s5; rewrite if_add_sub.
  subst s4; rewrite if_add_sub.
  subst s3; rewrite if_sub_sub.
  subst s2; rewrite if_add_sub.
  subst s1; rewrite if_sub_sub.
  subst s0 s.
  unfold Adj.total, Adj.recent_liquidation, Adj.repayment, Adj.utilization,
    Adj.frequency, Adj.diversification, Adj.volatility, Adj.account_age,
    Adj.recent_activity, risk_weights.liquidation_penalty,
    risk_weights.repayment_bonus, risk_weights.frequency_bonus,
    risk_weights.diversification_bonus, risk_weights.volatility_penalty.
  change (- (100)) with (-100); change (- (50)) with (-50);
    change (- (150)) with (-150); change (- (75)) with (-75);
    change (- (25)) with (-25).
  lia.
Qed.

(** No adjustment reads [liquidation_count]. *)
Lemma total_set_liquidation_count (f : features) (k : Z) :
  Adj.total (set_liquidation_count f k) = Adj.total f.
Proof. reflexivity. Qed.

(** The range of every adjustment: the bonuses are +100 (repayment), +50
    (frequency), +75 (diversification), +50 (account age) and +25 (recent
    activity); the other three adjustments are penalties only. *)
Lemma adjustment_ranges (f : features) :
  -100 <= Adj.recent_liquidation f <= 0
  /\ -100 <= Adj.repayment f <= 100
  /\ -150 <= Adj.utilization f <= 0
  /\ -50 <= Adj.frequency f <= 50
  /\ -25 <= Adj.diversification f <= 75
  /\ -100 <= Adj.volatility f <= 0
  /\ -50 <= Adj.account_age f <= 50
  /\ -75 <= Adj.recent_activity f <= 25.
Proof.
  unfold Adj.recent_liquidation, Adj.repayment, Adj.utilization,
    Adj.frequency, Adj.diversification, Adj.volatility, Adj.account_age,
    Adj.recent_activity.
  repeat split;
    repeat match goal with
           | |- context [if ?c then _ else _] => destruct c
           end; lia.
Qed.

Lemma total_range (f : features) : -650 <= Adj.total f <= 300.
Proof.
  pose proof (adjustment_ranges f) as H. unfold Adj.total. lia.
Qed.

(** C1. For every feature set, whatever the values of its fields,
    [calculate_risk_score] returns an integer between 0 and 1000
    inclusive. *)
Theorem score_bounds (f : features) :
  0 <= calculate_risk_score f <= 1000.
Proof. unfold calculate_risk_score. lia. Qed.

(** C6. With every other feature held fixed, the score for [k + 1]
    liquidations is never above the score for [k] liquidations. *)
Theorem more_liquidations_never_raise_score (f : features) (k : nat) :
  calculate_risk_score (set_liquidation_count f (Z.of_nat (S k)))
  <= calculate_risk_score (set_liquidation_count f (Z.of_nat k)).
Proof.
  unfold calculate_risk_score.
  rewrite !base_score_split, !total_set_liquidation_count.
  cbn [liquidation_count set_liquidation_count].
  lia.
Qed.

(** The same for any two integer counts, not only consecutive naturals. *)
Lemma score_antitone_in_liquidation_count (f : features) (j k : Z) :
  j <= k ->
  calculate_risk_score (set_liquidation_count f k)
  <= calculate_risk_score (set_liquidation_count f j).
Proof.
  intro Hjk. unfold calculate_risk_score.
  rewrite !base_score_split, !total_set_liquidation_count.
  cbn [liquidation_count set_liquidation_count].
  lia.
Qed.

(** C9. For every feature set whose liquidation count is a count (not
    negative), the sum reached before the clamp is at most 800, so the
    upper clamp at 1000 leaves it unchanged and the score is at most 800;
    and 800 is reached, by the feature set that earns every bonus. *)
Theorem score_at_most_800 (f : features) :
  0 <= liquidation_count f ->
  base_score f <= 800
  /\ Z.min 1000 (base_score f) = base_score f
  /\ calculate_risk_score f <= 800
  /\ calculate_risk_score best_features = 800.
Proof.
  intro Hk. unfold calculate_risk_score.
  pose proof (total_range f) as Ht.
  rewrite base_score_split.
  repeat split; try lia.
Qed.

Lemma score_at_most_800_witness :
  0 <= liquidation_count best_features
  /\ base_score best_features <= 800
  /\ Z.min 1000 (base_score best_features) = base_score best_features
  /\ calculate_risk_score best_features <= 800
  /\ calculate_risk_score best_features = 800.
Proof.
  assert (H : 0 <= liquidation_count best_features) by (simpl; lia).
  split; [exact H | exact (score_at_most_800 best_features H)].
Defined.

(** The extractor always yields a count: the hypothesis above holds for
    every feature set that the pipeline scores. *)
Lemma extract_features_liquidation_count (wd : wallet_data) (now : Z) :
  liquidation_count (extract_features wd now) = Py.len (liquidations wd)
  /\ 0 <= liquidation_count (extract_features wd now).
Proof.
  assert (H : liquidation_count (extract_features wd now)
              = Py.len (liquidations wd)).
  { unfold extract_features.
    destruct (map tx_timestamp (transactions wd)), (liquidations wd);
      reflexivity. }
  split; [exact H | ]. rewrite H. unfold Py.len. lia.
Qed.

Corollary extracted_score_at_most_800 (wd : wallet_data) (now : Z) :
  calculate_risk_score (extract_features wd now) <= 800.
Proof.
  destruct (extract_features_liquidation_count wd now) as [_ H].
  unfold calculate_risk_score.
  pose proof (total_range (extract_features wd now)) as Ht.
  rewrite base_score_split. lia.
Qed.

(** A negative count is not a count: there the upper clamp does engage. *)
Remark negative_count_reaches_the_clamp :
  base_score (set_liquidation_count best_features (-3)) = 1400
  /\ calculate_risk_score (set_liquidation_count best_features (-3)) = 1000.
Proof. split; reflexivity. Qed.

(** Unfold [neutral_elsewhere] and the like into one hypothesis per test. *)
Ltac split_andb :=
  repeat match goal with
         | H : (_ && _) = true |- _ => apply andb_true_iff in H; destruct H
         | H : negb _ = true |- _ => apply negb_true_iff in H
         end.

(** With two liquidations, the last one ten days ago, the sum is
    500 - 400 - 100 = 0 when every other feature lies in the band where no
    other branch of the scorer fires. None of the program's default values
    lies in that band; for those see
    [two_recent_liquidations_defaults_score]. *)
Lemma two_recent_liquidations_score (f : features) :
  liquidation_count f = 2 ->
  days_since_last_liquidation f = 10 ->
  neutral_elsewhere f = true ->
  base_score f = 0
  /\ calculate_risk_score f = 0
  /\ calculate_risk_score f = base_score f.
Proof.
  intros Hk Hd Hn.
  assert (Hb : base_score f = 0).
  { rewrite base_score_split, Hk.
    unfold neutral_elsewhere in Hn. split_andb.
    unfold Adj.total, Adj.recent_liquidation, Adj.repayment, Adj.utilization,
      Adj.frequency, Adj.diversification, Adj.volatility, Adj.account_age,
      Adj.recent_activity.
    rewrite Hd.
    repeat match goal with
           | H : _ = false |- _ => rewrite H
           end.
    assert (Py.Qgtb (current_utilization f) (8 # 10) = false) as ->.
    { unfold Py.Qgtb in *.
      match goal with
      | H : negb (Qle_bool (current_utilization f) _) = false |- _ =>
          apply negb_false_iff in H; apply Qle_bool_iff in H
      end.
      apply negb_false_iff, Qle_bool_iff.
      eapply Qle_trans; [eassumption | discriminate]. }
    assert ((asset_diversity f >=? 3) = false) as -> by lia.
    assert ((account_age_days f >? 365) = false) as -> by lia.
    assert ((account_age_days f <? 30) = false) as -> by lia.
    assert ((days_since_last_activity f <? 7) = false) as -> by lia.
    assert ((days_since_last_activity f >? 90) = false) as -> by lia.
    reflexivity. }
  unfold calculate_risk_score. rewrite Hb. repeat split.
Qed.

Lemma two_recent_liquidations_score_witness :
  liquidation_count two_recent_liquidations = 2
  /\ days_since_last_liquidation two_recent_liquidations = 10
  /\ neutral_elsewhere two_recent_liquidations = true
  /\ base_score two_recent_liquidations = 0
  /\ calculate_risk_score two_recent_liquidations = 0
  /\ calculate_risk_score two_recent_liquidations
     = base_score two_recent_liquidations.
Proof.
  repeat (split; [reflexivity | ]).
  apply (two_recent_liquidations_score two_recent_liquidations);
    reflexivity.
Defined.

(** At the extractor's defaults for the other features, the sum is
    negative and it is the clamp that yields 0. *)
Remark two_recent_liquidations_no_activity :
  let f :=
    mkFeatures 0 2 0 999 0 0 0 0 0 0 0 0 0 0 0 0 0 0 10 in
  base_score f = -275 /\ calculate_risk_score f = 0.
Proof. split; reflexivity. Qed.

(** ** The zero-activity scenario *)

Lemma Qle_bool_compat (a a' b b' : Q) :
  (a == a')%Q -> (b == b')%Q -> Qle_bool a b = Qle_bool a' b'.
Proof.
  intros Ha Hb. apply Bool.eq_iff_eq_true.
  rewrite !Qle_bool_iff, Ha, Hb. reflexivity.
Qed.

Lemma Qgtb_compat (a a' c : Q) : (a == a')%Q -> Py.Qgtb a c = Py.Qgtb a' c.
Proof.
  intro Ha. unfold Py.Qgtb. f_equal.
  apply Qle_bool_compat; [exact Ha | reflexivity].
Qed.

Lemma Qltb_compat (a a' c : Q) : (a == a')%Q -> Py.Qltb a c = Py.Qltb a' c.
Proof.
  intro Ha. unfold Py.Qltb. f_equal.
  apply Qle_bool_compat; [reflexivity | exact Ha].
Qed.

(** The empty activity record yields the zero-activity feature set, at any
    anchor instant. *)
Lemma extract_features_no_activity (wallet : string) (now : Z) :
  extract_features (mkWallet wallet [] [] [] None None) now
  = zero_activity_features.
Proof. reflexivity. Qed.

(** What the eight listed values say about the tests of the scorer and of
    the explanation generator. *)
Lemma zero_activity_tests (f : features) :
  zero_activity f = true ->
  liquidation_count f = 0
  /\ account_age_days f = 0
  /\ days_since_last_activity f = 999
  /\ asset_diversity f = 0
  /\ Py.Qgtb (repayment_ratio f) (9 # 10) = false
  /\ Py.Qltb (repayment_ratio f) (5 # 10) = true
  /\ Py.Qgtb (current_utilization f) (8 # 10) = false
  /\ Py.Qgtb (current_utilization f) (6 # 10) = false
  /\ Py.Qgtb (activity_frequency f) 2 = false
  /\ Py.Qltb (activity_frequency f) (5 # 10) = true.
Proof.
  unfold zero_activity. intro H. split_andb.
  repeat match goal with
         | H : Qeq_bool _ _ = true |- _ => apply Qeq_bool_iff in H
         | H : (_ =? _) = true |- _ => apply Z.eqb_eq in H
         end.
  repeat split; try assumption;
    match goal with
    | H : (?x == 0)%Q |- Py.Qgtb ?x _ = _ => rewrite (Qgtb_compat _ _ _ H)
    | H : (?x == 0)%Q |- Py.Qltb ?x _ = _ => rewrite (Qltb_compat _ _ _ H)
    end; reflexivity.
Qed.

(** C2, as the code has it. For the zero-activity feature set the score is
    225: 500 - 100 (repayment ratio 0 is below 0.5) - 50 (low frequency)
    - 50 (account younger than 30 days) - 75 (inactive for more than 90
    days). *)
Theorem zero_activity_score (f : features) :
  zero_activity f = true ->
  Qeq_bool (volatile_asset_ratio f) 0 = true ->
  days_since_last_liquidation f = 999 ->
  calculate_risk_score f = 225.
Proof.
  intros Hz Hv Hd.
  destruct (zero_activity_tests f Hz)
    as (Hk & Ha & Hl & Hdiv & Hr1 & Hr2 & Hu1 & Hu2 & Hf1 & Hf2).
  apply Qeq_bool_iff in Hv.
  unfold calculate_risk_score. rewrite base_score_split, Hk.
  unfold Adj.total, Adj.recent_liquidation, Adj.repayment, Adj.utilization,
    Adj.frequency, Adj.diversification, Adj.volatility, Adj.account_age,
    Adj.recent_activity.
  rewrite Hd, Ha, Hl, Hdiv, Hr1, Hr2, Hu1, Hu2, Hf1, Hf2.
  rewrite (Qgtb_compat _ _ _ Hv).
  reflexivity.
Qed.

Lemma zero_activity_score_witness :
  zero_activity zero_activity_features = true
  /\ Qeq_bool (volatile_asset_ratio zero_activity_features) 0 = true
  /\ days_since_last_liquidation zero_activity_features = 999
  /\ calculate_risk_score zero_activity_features = 225.
Proof.
  repeat (split; [reflexivity | ]).
  apply (zero_activity_score zero_activity_features); reflexivity.
Defined.

(** The zero-activity feature set does not score 305. *)
Lemma zero_activity_score_not_305 :
  zero_activity zero_activity_features = true
  /\ Qeq_bool (volatile_asset_ratio zero_activity_features) 0 = true
  /\ days_since_last_liquidation zero_activity_features = 999
  /\ calculate_risk_score zero_activity_features <> 305.
Proof.
  repeat (split; [reflexivity | ]). discriminate.
Qed.

(** C3, as the code has it. For the zero-activity feature set the
    explanation has two clauses, the repayment one first: a repayment ratio
    of 0 is below 0.5. *)
Theorem zero_activity_explanation (f : features) (score : Z) :
  zero_activity f = true ->
  generate_risk_explanation f score
  = "Poor repayment history; Inactive user"%string.
Proof.
  intro Hz.
  destruct (zero_activity_tests f Hz)
    as (Hk & Ha & Hl & Hdiv & Hr1 & Hr2 & Hu1 & Hu2 & Hf1 & Hf2).
  unfold generate_risk_explanation, explanations, append_if.
  rewrite Hk, Hdiv, Hr1, Hr2, Hu1, Hf1, Hf2.
  reflexivity.
Qed.

Lemma zero_activity_explanation_witness :
  zero_activity zero_activity_features = true
  /\ generate_risk_explanation zero_activity_features 225
     = "Poor repayment history; Inactive user"%string.
Proof.
  split; [reflexivity | ].
  apply (zero_activity_explanation zero_activity_features 225); reflexivity.
Defined.

(** The explanation of the zero-activity feature set is not the single
    clause. *)
Lemma zero_activity_explanation_not_inactive_only :
  zero_activity zero_activity_features = true
  /\ generate_risk_explanation zero_activity_features
       (calculate_risk_score zero_activity_features)
     <> "Inactive user"%string.
Proof.
  split; [reflexivity | discriminate].
Qed.

(** ** Two recent liquidations beside the defaults *)

(** C8, as the code has it. With two liquidations, the last one ten days
    ago, and every other feature at its default, the score is 0 and it is
    the lower clamp that yields it: the sum before the clamp is -275, or
    -175 when the days since the last activity are 0 rather than 999. *)
Theorem two_recent_liquidations_defaults_score (f : features) :
  liquidation_count f = 2 ->
  days_since_last_liquidation f = 10 ->
  defaults_elsewhere f = true ->
  calculate_risk_score f = 0
  /\ base_score f
     = (if days_since_last_activity f =? 999 then -275 else -175)
  /\ base_score f < 0
  /\ calculate_risk_score f <> base_score f.
Proof.
  intros Hk Hd Hdef.
  unfold defaults_elsewhere in Hdef. split_andb.
  repeat match goal with
         | H : Qeq_bool _ _ = true |- _ => apply Qeq_bool_iff in H
         | H : (account_age_days f =? _) = true |- _ => apply Z.eqb_eq in H
         | H : (asset_diversity f =? _) = true |- _ => apply Z.eqb_eq in H
         end.
  assert (Hb : base_score f
               = (if days_since_last_activity f =? 999 then -275 else -175)).
  { rewrite base_score_split, Hk.
    unfold Adj.total, Adj.recent_liquidation, Adj.repayment, Adj.utilization,
      Adj.frequency, Adj.diversification, Adj.volatility, Adj.account_age,
      Adj.recent_activity.
    rewrite Hd.
    repeat match goal with
           | H : (?x == 0)%Q |- _ =>
               rewrite ?(Qgtb_compat x 0 (9 # 10) H),
                 ?(Qltb_compat x 0 (5 # 10) H),
                 ?(Qgtb_compat x 0 (8 # 10) H),
                 ?(Qgtb_compat x 0 (6 # 10) H),
                 ?(Qgtb_compat x 0 (7 # 10) H),
                 ?(Qgtb_compat x 0 2 H);
               clear H
           | H : account_age_days f = 0 |- _ => rewrite H; clear H
           | H : asset_diversity f = 0 |- _ => rewrite H; clear H
           end.
    match goal with
    | H : (_ || _) = true |- _ =>
        apply orb_true_iff in H; destruct H as [H | H];
          apply Z.eqb_eq in H; rewrite H
    end; reflexivity. }
  assert (Hneg : base_score f < 0)
    by (rewrite Hb; destruct (days_since_last_activity f =? 999); lia).
  unfold calculate_risk_score.
  split; [lia | ]. split; [exact Hb | ]. split; [exact Hneg | lia].
Qed.

Lemma two_recent_liquidations_defaults_score_witness :
  let f := two_recent_liquidations_defaults in
  liquidation_count f = 2
  /\ days_since_last_liquidation f = 10
  /\ defaults_elsewhere f = true
  /\ calculate_risk_score f = 0
  /\ base_score f = -275
  /\ base_score f < 0
  /\ calculate_risk_score f <> base_score f.
Proof.
  intro f.
  split; [reflexivity | ]. split; [reflexivity | ]. split; [reflexivity | ].
  exact (two_recent_liquidations_defaults_score f
           eq_refl eq_refl eq_refl).
Defined.

(** At the defaults the sum before the clamp is negative. *)
Lemma two_recent_liquidations_clamp_engages :
  liquidation_count two_recent_liquidations_defaults = 2
  /\ days_since_last_liquidation two_recent_liquidations_defaults = 10
  /\ defaults_elsewhere two_recent_liquidations_defaults = true
  /\ calculate_risk_score two_recent_liquidations_defaults = 0
  /\ ~ (0 <= base_score two_recent_liquidations_defaults).
Proof.
  split; [reflexivity | ]. split; [reflexivity | ]. split; [reflexivity | ].
  split; [reflexivity | ].
  intro H. vm_compute in H. exact (H eq_refl).
Qed.

(** ** The explanation and the score argument *)

Lemma explanations_same_features (f g : features) :
  same_explained_features f g -> explanations f = explanations g.
Proof.
  intros (Hk & Hr & Hu & Hf & Hd).
  unfold explanations.
  rewrite Hk, Hd.
  rewrite (Qgtb_compat _ _ (9 # 10) Hr), (Qltb_compat _ _ (5 # 10) Hr),
    (Qgtb_compat _ _ (8 # 10) Hu), (Qgtb_compat _ _ 2 Hf),
    (Qltb_compat _ _ (5 # 10) Hf).
  reflexivity.
Qed.

(** C10. The explanation is the same for any two score arguments, and it
    is the same for two feature sets that agree on liquidation count,
    repayment ratio, current utilization, activity frequency and asset
    diversity, whatever the scores passed. *)
Theorem explanation_ignores_score (f g : features) (s1 s2 : Z) :
  generate_risk_explanation f s1 = generate_risk_explanation f s2
  /\ (same_explained_features f g ->
      generate_risk_explanation f s1 = generate_risk_explanation g s2).
Proof.
  split; [reflexivity | ].
  intro H. unfold generate_risk_explanation.
  rewrite (explanations_same_features f g H). reflexivity.
Qed.

Lemma explanation_ignores_score_witness :
  let f := two_recent_liquidations in
  let g := mkFeatures 9 2 3 400 (3 # 2) 0 0 0 0 0 0 (14 # 20) 2 1 0
             (6 # 20) 0 0 999 in
  same_explained_features f g
  /\ generate_risk_explanation f 0 = generate_risk_explanation f 1000
  /\ generate_risk_explanation f 0 = generate_risk_explanation g 1000.
Proof.
  intros f g.
  assert (H : same_explained_features f g)
    by (repeat split; reflexivity).
  destruct (explanation_ignores_score f g 0 1000) as [H1 H2].
  split; [exact H | split; [exact H1 | exact (H2 H)]].
Defined.

(** ** The utilization feature *)

Lemma extract_features_current_utilization (wd : wallet_data) (now : Z) :
  current_utilization (extract_features wd now)
  = utilization (current_positions wd).
Proof.
  unfold extract_features.
  destruct (map tx_timestamp (transactions wd)), (liquidations wd);
    reflexivity.
Qed.

(** [max(a, 1)] on doubles is never zero: it is [1], or a sum that is not
    below [1]. *)
Lemma max1_not_zero (a : Float64.float) :
  SFeqb (Float64.max1 a) Float64.zero = false.
Proof.
  unfold Float64.max1.
  destruct (SFltb a Float64.one) eqn:E; [reflexivity | ].
  destruct a as [s | s | | s m e]; try destruct s; try reflexivity;
    cbv in E; discriminate E.
Qed.

(** C7, as the code has it. The utilization feature is the sum of the
    borrowed amounts of all positions divided by the sum of the supplied
    amounts when that sum is not below 1, and by 1 otherwise: the floor is
    taken once, on the sum, and the value differs from the one a per-asset
    floor would give. This holds of the exact quotient and of the program's
    doubles. On doubles the divisor is never zero, so the division never
    raises, whatever the record; the feature is 0 for a record with no
    positions. *)
Theorem current_utilization_floors_the_aggregate
  (wd : wallet_data) (now : Z) (fps : list (asset * Float64.position)) :
  let ps := current_positions wd in
  let sup := fold_left Qplus (map (fun kv => supplied (snd kv)) ps) 0%Q in
  let bor := fold_left Qplus (map (fun kv => borrowed (snd kv)) ps) 0%Q in
  let u := current_utilization (extract_features wd now) in
  let fsup :=
    fold_left (SFadd 53 1024)
      (map (fun kv => Float64.supplied (snd kv)) fps) (S754_zero false) in
  let fbor :=
    fold_left (SFadd 53 1024)
      (map (fun kv => Float64.borrowed (snd kv)) fps) (S754_zero false) in
  ((1 <= sup)%Q -> u = (bor / sup)%Q)
  /\ ((sup < 1)%Q -> u = (bor / 1)%Q)
  /\ match ps with [] => (u == 0)%Q | _ :: _ => True end
  /\ ~ (utilization small_positions
        == utilization_floor_per_asset small_positions)%Q
  /\ (SFltb fsup Float64.one = false ->
      Float64.current_utilization fps = Ok (SFdiv 53 1024 fbor fsup))
  /\ (SFltb fsup Float64.one = true ->
      Float64.current_utilization fps
      = Ok (SFdiv 53 1024 fbor Float64.one))
  /\ Float64.current_utilization [] = Ok (S754_zero false)
  /\ Float64.current_utilization Float64.small_positions
     <> Float64.utilization_floor_per_asset Float64.small_positions.
Proof.
  intros ps sup bor u fsup fbor.
  assert (Hu : u = (bor / Py.max2 sup 1)%Q)
    by apply extract_features_current_utilization.
  assert (Hf : Float64.current_utilization fps
               = Ok (SFdiv 53 1024 fbor (Float64.max1 fsup))).
  { unfold Float64.current_utilization, Float64.truediv.
    rewrite max1_not_zero. reflexivity. }
  split; [ | split; [ | split; [ | split; [ | split; [ | split; [ | split]]]]]].
  - intro H. rewrite Hu. unfold Py.max2, Py.Qltb.
    apply Qle_bool_iff in H. rewrite H. reflexivity.
  - intro H. rewrite Hu. unfold Py.max2, Py.Qltb.
    destruct (Qle_bool 1 sup) eqn:E; [ | reflexivity].
    apply Qle_bool_iff in E. exfalso. exact (Qlt_not_le _ _ H E).
  - destruct ps eqn:E; [ | exact I].
    rewrite Hu. subst sup bor. reflexivity.
  - discriminate.
  - intro H. rewrite Hf. unfold Float64.max1. rewrite H. reflexivity.
  - intro H. rewrite Hf. unfold Float64.max1. rewrite H. reflexivity.
  - reflexivity.
  - vm_compute. discriminate.
Qed.

(** Two positions whose amounts are each a finite double: both sums
    overflow to infinity and the feature is a NaN, which is not finite. *)
Lemma current_utilization_not_finite_on_overflow :
  Forall (fun kv =>
            Float64.is_finite (Float64.supplied (snd kv)) = true
            /\ Float64.is_finite (Float64.borrowed (snd kv)) = true)
    Float64.overflowing_positions
  /\ Float64.current_utilization Float64.overflowing_positions = Ok S754_nan
  /\ Float64.is_finite S754_nan = false.
Proof.
  split; [repeat constructor | ]. split; reflexivity.
Qed.

(** ** Seeding from the wallet identifier *)

Section HexSuffix.

Import PyStr.

(** A hex digit is none of the characters that [int()] treats specially. *)
Lemma hex_char_plain (c : ascii) :
  is_hex c = true ->
  is_space c = false
  /\ Ascii.eqb c "_" = false
  /\ Ascii.eqb c "+" = false
  /\ Ascii.eqb c "-" = false
  /\ Ascii.eqb c "x" = false
  /\ Ascii.eqb c "X" = false
  /\ exists d, hex_digit c = Some d /\ 0 <= d <= 15.
Proof.
  destruct c as [[] [] [] [] [] [] [] []]; intro H;
    vm_compute in H; try discriminate H;
    repeat (split; [reflexivity | ]);
    eexists; (split; [reflexivity | vm_compute; split; discriminate]).
Qed.

Lemma lstrip_hex (l : list ascii) :
  forallb is_hex l = true -> lstrip l = l.
Proof.
  destruct l as [ | c r]; [reflexivity | ].
  simpl. intro H. apply andb_true_iff in H. destruct H as [Hc _].
  destruct (hex_char_plain c Hc) as [Hs _]. rewrite Hs. reflexivity.
Qed.

Lemma forallb_rev {A} (p : A -> bool) (l : list A) :
  forallb p l = true -> forallb p (rev l) = true.
Proof.
  rewrite !forallb_forall. intros H x Hx. apply H, in_rev, Hx.
Qed.

Lemma strip_hex (l : list ascii) :
  forallb is_hex l = true -> strip l = l.
Proof.
  intro H. unfold strip.
  rewrite (lstrip_hex (rev l)) by (apply forallb_rev, H).
  rewrite rev_involutive. apply lstrip_hex, H.
Qed.

Lemma digits16_hex (l : list ascii) (acc : Z) :
  forallb is_hex l = true ->
  digits16 false acc l
  = Some (fold_left
            (fun a c => 16 * a + match hex_digit c with
                                 | Some d => d
                                 | None => 0
                                 end) l acc).
Proof.
  revert acc. induction l as [ | c r IH]; intros acc H; [reflexivity | ].
  simpl in H. apply andb_true_iff in H. destruct H as [Hc Hr].
  destruct (hex_char_plain c Hc) as (_ & Hu & _ & _ & _ & _ & d & Hd & _).
  simpl. rewrite Hu, Hd. apply IH, Hr.
Qed.

Lemma signed16_hex (l : list ascii) :
  l <> [] -> forallb is_hex l = true -> signed16 l = Some (hex_value l).
Proof.
  intros Hne H.
  destruct l as [ | c r]; [contradiction | ].
  pose proof H as Hall.
  simpl in H. apply andb_true_iff in H. destruct H as [Hc Hr].
  destruct (hex_char_plain c Hc) as (_ & Hu & Hp & Hm & _ & _ & _).
  unfold signed16. rewrite Hp, Hm.
  assert (Hb : body16 (c :: r) = Some (hex_value (c :: r))).
  { unfold body16. rewrite Hu. apply digits16_hex, Hall. }
  unfold unsigned16.
  destruct r as [ | x r']; [exact Hb | ].
  simpl in Hr. apply andb_true_iff in Hr. destruct Hr as [Hx _].
  destruct (hex_char_plain x Hx) as (_ & _ & _ & _ & Hx1 & Hx2 & _).
  rewrite Hx1, Hx2, andb_false_r. exact Hb.
Qed.

Lemma int16_hex (s : string) :
  list_ascii_of_string s <> [] ->
  forallb is_hex (list_ascii_of_string s) = true ->
  int16 s = Ok (hex_value (list_ascii_of_string s)).
Proof.
  intros Hne H. unfold int16.
  rewrite (strip_hex _ H), (signed16_hex _ Hne H). reflexivity.
Qed.

Lemma length_list_ascii (s : string) :
  List.length (list_ascii_of_string s) = String.length s.
Proof. induction s; simpl; congruence. Qed.

Lemma suffix_length (n : nat) (s : string) :
  (n <= String.length s)%nat ->
  List.length (list_ascii_of_string (suffix n s)) = n.
Proof.
  intro H. unfold suffix.
  rewrite list_ascii_of_string_of_list_ascii, length_skipn,
    length_list_ascii.
  lia.
Qed.

(** [k] hex digits denote a number below [16^k]. *)
Lemma hex_fold_range (l : list ascii) (acc : Z) (k : nat) :
  forallb is_hex l = true ->
  0 <= acc < 16 ^ Z.of_nat k ->
  0 <= fold_left
         (fun a c => 16 * a + match hex_digit c with
                              | Some d => d
                              | None => 0
                              end) l acc
    < 16 ^ Z.of_nat (k + List.length l).
Proof.
  revert acc k. induction l as [ | c r IH]; intros acc k H Hacc.
  - simpl. rewrite Nat.add_0_r. exact Hacc.
  - simpl in H. apply andb_true_iff in H. destruct H as [Hc Hr].
    destruct (hex_char_plain c Hc) as (_ & _ & _ & _ & _ & _ & d & Hd & Hrange).
    cbn [fold_left]. rewrite Hd.
    replace (k + List.length (c :: r))%nat with (S k + List.length r)%nat
      by (simpl; lia).
    apply IH; [exact Hr | ].
    rewrite Nat2Z.inj_succ, Z.pow_succ_r by apply Nat2Z.is_nonneg.
    remember (16 ^ Z.of_nat k) as p. lia.
Qed.

Lemma hex_value_range (l : list ascii) :
  forallb is_hex l = true ->
  0 <= hex_value l < 16 ^ Z.of_nat (List.length l).
Proof.
  intro H. apply (hex_fold_range l 0 0 H). simpl. lia.
Qed.

(** For an identifier that ends in eight hex characters, the seed is their
    base-16 value; the reduction modulo [2^32] leaves it as it is. *)
Lemma wallet_seed_hex (w : string) :
  ends_in_hex 8 w = true ->
  let v := hex_value (list_ascii_of_string (suffix 8 w)) in
  wallet_seed w = Ok (v mod 2 ^ 32) /\ v mod 2 ^ 32 = v.
Proof.
  intros H v. unfold ends_in_hex in H. apply andb_true_iff in H.
  destruct H as [Hlen Hhex]. apply Nat.leb_le in Hlen.
  pose proof (suffix_length 8 w Hlen) as H8.
  split.
  - unfold wallet_seed. rewrite int16_hex; [reflexivity | | exact Hhex].
    intro E. rewrite E in H8. discriminate H8.
  - pose proof (hex_value_range _ Hhex) as Hr. rewrite H8 in Hr.
    apply Z.mod_small. exact Hr.
Qed.

End HexSuffix.

(** ** Determinism of the simulator *)

Section Determinism.

Context `{NR : NumpyRandom}.

Lemma simulate_from_seed (w : string) (now : Z) (g : rng) (s : Z) :
  wallet_seed w = Ok s ->
  _simulate_compound_data w now g
  = (Ok (fst (gen_activity w now (np_seed s))),
     snd (gen_activity w now (np_seed s))).
Proof.
  intro H. unfold _simulate_compound_data. rewrite H.
  destruct (gen_activity w now (np_seed s)). reflexivity.
Qed.

Lemma simulate_raises (w : string) (now : Z) (g : rng) (e : exn) :
  wallet_seed w = Raise e ->
  _simulate_compound_data w now g = (Raise e, g).
Proof.
  intro H. unfold _simulate_compound_data. rewrite H. reflexivity.
Qed.

(** Whatever the identifier, the outcome of a simulation does not depend on
    the state in which it finds the generator. *)
Lemma simulate_ignores_state (w : string) (now : Z) (g1 g2 : rng) :
  fst (_simulate_compound_data w now g1)
  = fst (_simulate_compound_data w now g2).
Proof.
  destruct (wallet_seed w) as [s | e] eqn:E.
  - rewrite !(simulate_from_seed w now _ s E). reflexivity.
  - rewrite !(simulate_raises w now _ e E). reflexivity.
Qed.

(** C5. For an identifier that ends in eight hex characters, the generator
    is seeded with their base-16 value modulo [2^32], and two calls with the
    same anchor instant, the second one starting from the generator state
    the first one left, return the same activity record: the record drawn
    from that seed. So does a call from any other generator state. *)
Theorem simulation_is_deterministic (w : string) (now : Z) (g : rng) :
  PyStr.ends_in_hex 8 w = true ->
  let seed :=
    PyStr.hex_value (list_ascii_of_string (PyStr.suffix 8 w)) mod 2 ^ 32 in
  let first := _simulate_compound_data w now g in
  let second := _simulate_compound_data w now (snd first) in
  wallet_seed w = Ok seed
  /\ fst first = Ok (fst (gen_activity w now (np_seed seed)))
  /\ fst second = fst first
  /\ (forall g', fst (_simulate_compound_data w now g') = fst first).
Proof.
  intros H seed first second.
  destruct (wallet_seed_hex w H) as [Hseed _].
  subst first second.
  split; [exact Hseed | ].
  split; [rewrite (simulate_from_seed w now g _ Hseed); reflexivity | ].
  split; [apply simulate_ignores_state | ].
  intro g'. apply simulate_ignores_state.
Qed.

End Determinism.

Lemma simulation_is_deterministic_witness :
  let w := "0x0039f22efb07a647557c7c5d17854cfd6d489ef3"%string in
  let first :=
    @_simulate_compound_data Lcg.numpy_random w Lcg.anchor 7 in
  let second :=
    @_simulate_compound_data Lcg.numpy_random w Lcg.anchor (snd first) in
  PyStr.ends_in_hex 8 w = true
  /\ @wallet_seed w = Ok 1833475827
  /\ fst second = fst first.
Proof.
  intros w first second.
  assert (H : PyStr.ends_in_hex 8 w = true) by reflexivity.
  destruct (@simulation_is_deterministic Lcg.numpy_random w Lcg.anchor 7 H)
    as (Hseed & _ & Hsame & _).
  split; [exact H | split; [exact Hseed | exact Hsame]].
Defined.

(** ** The neutral fallback of the batch loop *)

Section BatchProperties.

Context `{NR : NumpyRandom}.

Lemma try_wallet_outcome (self : scorer) (now : Z) (w : string) (g : rng) :
  fst (try_wallet self now w g)
  = match fst (self_fetch_wallet_transactions self w now g) with
    | Raise e => Raise e
    | Ok wd =>
        match self_extract_features self wd now with
        | Raise e => Raise e
        | Ok f =>
            match self_calculate_risk_score self f with
            | Raise e => Raise e
            | Ok score => Ok (result_row w f score)
            end
        end
    end.
Proof.
  unfold try_wallet.
  destruct (self_fetch_wallet_transactions self w now g) as [[wd | e] g'];
    [ | reflexivity].
  simpl. destruct (self_extract_features self wd now) as [f | e];
    [ | reflexivity].
  destruct (self_calculate_risk_score self f); reflexivity.
Qed.

Lemma process_wallet_outcome (self : scorer) (now : Z) (w : string) (g : rng) :
  fst (process_wallet self now w g)
  = match fst (try_wallet self now w g) with
    | Ok rw => rw
    | Raise _ => error_row w
    end.
Proof.
  unfold process_wallet.
  destruct (try_wallet self now w g) as [[rw | e] g']; reflexivity.
Qed.

(** A stage raises exactly when the [try] body is left by an exception. *)
Lemma stage_raises_iff (self : scorer) (now : Z) (w : string) (g : rng) :
  stage_raises self now w g
  <-> is_raise (fst (try_wallet self now w g)) = true.
Proof.
  unfold stage_raises. rewrite try_wallet_outcome.
  destruct (fst (self_fetch_wallet_transactions self w now g)) as [wd | e].
  - destruct (self_extract_features self wd now) as [f | e] eqn:Ef.
    + destruct (self_calculate_risk_score self f) as [sc | e] eqn:Es.
      * simpl. split; [ | discriminate].
        intros [[e H] | [(wd' & e & H & H') | (wd' & f' & e & H & H' & H'')]];
          congruence.
      * simpl. split; [reflexivity | ]. intros _.
        right; right. exists wd, f, e. auto.
    + simpl. split; [reflexivity | ]. intros _.
      right; left. exists wd, e. auto.
  - simpl. split; [reflexivity | ]. intros _. left. exists e. reflexivity.
Qed.

Lemma process_wallet_wallet_id (self : scorer) (now : Z) (w : string) (g : rng) :
  r_wallet_id (fst (process_wallet self now w g)) = w.
Proof.
  rewrite process_wallet_outcome, try_wallet_outcome.
  destruct (fst (self_fetch_wallet_transactions self w now g)) as [wd | e];
    [ | reflexivity].
  destruct (self_extract_features self wd now) as [f | e]; [ | reflexivity].
  destruct (self_calculate_risk_score self f); reflexivity.
Qed.

Section Reseeding.

Variable self : scorer.
Hypothesis self_reseeds : reseeds self.

Lemma try_wallet_ignores_state (now : Z) (w : string) (g1 g2 : rng) :
  fst (try_wallet self now w g1) = fst (try_wallet self now w g2).
Proof.
  rewrite !try_wallet_outcome, (self_reseeds w now g1 g2). reflexivity.
Qed.

Lemma process_wallet_ignores_state (now : Z) (w : string) (g1 g2 : rng) :
  fst (process_wallet self now w g1) = fst (process_wallet self now w g2).
Proof.
  rewrite !process_wallet_outcome, (try_wallet_ignores_state now w g1 g2).
  reflexivity.
Qed.

(** Every row is the row of its own wallet processed alone. *)
Lemma process_wallet_list_rows (now : Z) (ws : list string) (g g0 : rng) :
  fst (process_wallet_list self now ws g)
  = map (fun w => fst (process_wallet self now w g0)) ws.
Proof.
  revert g. induction ws as [ | w ws IH]; intro g; [reflexivity | ].
  simpl.
  destruct (process_wallet self now w g) as [rw g'] eqn:E.
  specialize (IH g').
  destruct (process_wallet_list self now ws g') as [rws g''].
  simpl in *. rewrite IH. f_equal.
  change rw with (fst (rw, g')). rewrite <- E.
  apply process_wallet_ignores_state.
Qed.

End Reseeding.

(** C4. For a scorer whose stages reseed the generator before drawing from
    it, and every list of wallets: the result has one row per wallet, in
    input order; a wallet for which the simulation, the extraction or the
    scoring raises gets exactly the row with its identifier, score 500,
    explanation "Error in processing" and 0 in the five other fields; and the row of a wallet is the same in any other
    run in which that wallet's own stages give the same outcome, whatever
    fails or does not fail for the other wallets. *)
Theorem process_wallet_list_neutral_fallback
  (self : scorer) (now : Z) (wallets : list string) (g : rng) :
  reseeds self ->
  let rows := fst (process_wallet_list self now wallets g) in
  map r_wallet_id rows = wallets
  /\ (forall i w,
        nth_error wallets i = Some w ->
        stage_raises self now w g ->
        nth_error rows i
        = Some {| r_wallet_id := w;
                  r_score := 500;
                  r_explanation := "Error in processing";
                  r_liquidation_count := 0;
                  r_repayment_ratio := 0;
                  r_current_utilization := 0;
                  r_activity_frequency := 0;
                  r_asset_diversity := 0 |})
  /\ (forall (self' : scorer) (g' : rng),
        reseeds self' ->
        forall i w,
          nth_error wallets i = Some w ->
          fst (try_wallet self' now w g') = fst (try_wallet self now w g) ->
          nth_error (fst (process_wallet_list self' now wallets g')) i
          = nth_error rows i).
Proof.
  intros Hre rows. subst rows.
  rewrite (process_wallet_list_rows self Hre now wallets g g).
  split; [ | split].
  - rewrite map_map. rewrite <- (map_id wallets) at 2.
    apply map_ext. intro w. apply process_wallet_wallet_id.
  - intros i w Hi Hraise.
    rewrite nth_error_map, Hi. simpl. f_equal.
    apply stage_raises_iff in Hraise.
    rewrite process_wallet_outcome.
    destruct (fst (try_wallet self now w g)); [discriminate | reflexivity].
  - intros self' g' Hre' i w Hi Hsame.
    rewrite (process_wallet_list_rows self' Hre' now wallets g' g').
    rewrite !nth_error_map, Hi. simpl. f_equal.
    rewrite !process_wallet_outcome, Hsame. reflexivity.
Qed.

(** The class as written reseeds: [_simulate_compound_data] seeds the
    generator from the wallet before its first draw. *)
Lemma CompoundRiskScorer_reseeds : reseeds CompoundRiskScorer.
Proof.
  intros w now g1 g2. apply simulate_ignores_state.
Qed.

(** In the class as written only the simulation can raise, and it does so
    exactly when the seed cannot be read from the identifier. *)
Lemma CompoundRiskScorer_raises_iff (now : Z) (w : string) (g : rng) :
  stage_raises CompoundRiskScorer now w g
  <-> exists e, wallet_seed w = Raise e.
Proof.
  unfold stage_raises. simpl. unfold fetch_wallet_transactions.
  destruct (wallet_seed w) as [s | e] eqn:E.
  - rewrite (simulate_from_seed w now g s E). simpl. split.
    + intros [[e H] | [(wd & e & _ & H) | (wd & f & e & _ & _ & H)]];
        discriminate.
    + intros [e H]. discriminate.
  - rewrite (simulate_raises w now g e E). simpl. split.
    + intros _. exists e. reflexivity.
    + intros _. left. exists e. reflexivity.
Qed.

(** The rows of the class as written, for every list of wallets. *)
Corollary CompoundRiskScorer_rows (now : Z) (wallets : list string) (g : rng) :
  fst (process_wallet_list CompoundRiskScorer now wallets g)
  = map (fun w =>
           match wallet_seed w with
           | Raise _ => error_row w
           | Ok s =>
               let f :=
                 extract_features (fst (gen_activity w now (np_seed s))) now in
               result_row w f (calculate_risk_score f)
           end) wallets.
Proof.
  rewrite (process_wallet_list_rows _ CompoundRiskScorer_reseeds
             now wallets g g).
  apply map_ext. intro w.
  rewrite process_wallet_outcome, try_wallet_outcome. simpl.
  unfold fetch_wallet_transactions.
  destruct (wallet_seed w) as [s | e] eqn:E.
  - rewrite (simulate_from_seed w now g s E). reflexivity.
  - rewrite (simulate_raises w now g e E). reflexivity.
Qed.

(** Every row of a batch has a score between 0 and 1000. *)
Corollary CompoundRiskScorer_row_scores
  (now : Z) (wallets : list string) (g : rng) (rw : row) :
  In rw (fst (process_wallet_list CompoundRiskScorer now wallets g)) ->
  0 <= r_score rw <= 1000.
Proof.
  rewrite CompoundRiskScorer_rows. intro H.
  apply in_map_iff in H. destruct H as (w & <- & _).
  destruct (wallet_seed w); simpl.
  - unfold calculate_risk_score. lia.
  - lia.
Qed.

End BatchProperties.

Lemma process_wallet_list_neutral_fallback_witness :
  let rows :=
    fst (@process_wallet_list Lcg.numpy_random CompoundRiskScorer
           Lcg.anchor Lcg.wallets 7) in
  @reseeds Lcg.numpy_random CompoundRiskScorer
  /\ map r_wallet_id rows = Lcg.wallets
  /\ nth_error rows 1
     = Some {| r_wallet_id := "not-a-wallet";
               r_score := 500;
               r_explanation := "Error in processing";
               r_liquidation_count := 0;
               r_repayment_ratio := 0;
               r_current_utilization := 0;
               r_activity_frequency := 0;
               r_asset_diversity := 0 |}.
Proof.
  intro rows.
  pose proof (@CompoundRiskScorer_reseeds Lcg.numpy_random) as Hre.
  destruct (@process_wallet_list_neutral_fallback Lcg.numpy_random
              CompoundRiskScorer Lcg.anchor Lcg.wallets 7 Hre)
    as (Hids & Hrow & _).
  split; [exact Hre | split; [exact Hids | ]].
  apply Hrow; [reflexivity | ].
  left. exists ValueError. reflexivity.
Defined.

(** ** More on the scorer *)

Lemma adjustments_multiple_of_25 (f : features) :
  exists q, Adj.total f = 25 * q.
Proof.
  unfold Adj.total, Adj.recent_liquidation, Adj.repayment, Adj.utilization,
    Adj.frequency, Adj.diversification, Adj.volatility, Adj.account_age,
    Adj.recent_activity.
  repeat match goal with
         | |- context [if ?c then ?a else if ?d then ?b else 0] =>
             let t := fresh "t" in
             let H := fresh "H" in
             assert (H : exists q, (if c then a else if d then b else 0) = 25 * q)
               by (destruct c; [ | destruct d];
                   [exists (a / 25) | exists (b / 25) | exists 0]; reflexivity);
             destruct H as [t H]; rewrite H; clear H
         | |- context [if ?c then ?a else 0] =>
             let t := fresh "t" in
             let H := fresh "H" in
             assert (H : exists q, (if c then a else 0) = 25 * q)
               by (destruct c; [exists (a / 25) | exists 0]; reflexivity);
             destruct H as [t H]; rewrite H; clear H
         end.
  eexists. 
  match goal with
  | |- 25 * ?a + 25 * ?b + 25 * ?c + 25 * ?d + 25 * ?e + 25 * ?g + 25 * ?h
       + 25 * ?i = _ =>
      instantiate (1 := a + b + c + d + e + g + h + i); lia
  end.
Qed.

(** X1. Every score is a multiple of 25: the base, the penalty per liquidation,
    every adjustment and both clamp bounds are. *)
Theorem score_is_a_multiple_of_25 (f : features) :
  calculate_risk_score f mod 25 = 0.
Proof.
  unfold calculate_risk_score.
  destruct (adjustments_multiple_of_25 f) as [q Hq].
  assert (Hb : base_score f = 25 * (20 - 8 * liquidation_count f + q))
    by (rewrite base_score_split, Hq; lia).
  destruct (Z.max_spec 0 (Z.min 1000 (base_score f))) as [[_ ->] | [_ ->]];
    [ | reflexivity].
  destruct (Z.min_spec 1000 (base_score f)) as [[_ ->] | [_ ->]];
    [reflexivity | ].
  rewrite Hb, Z.mul_comm. apply Z.mod_mul. discriminate.
Qed.

(** X2. With four or more liquidations the score is 0, whatever the other
    features: the bonuses add up to 300 at most. *)
Theorem four_liquidations_score_zero (f : features) :
  4 <= liquidation_count f -> calculate_risk_score f = 0.
Proof.
  intro H. unfold calculate_risk_score.
  pose proof (total_range f) as Ht.
  rewrite base_score_split. lia.
Qed.

Lemma four_liquidations_score_zero_witness :
  4 <= liquidation_count (set_liquidation_count best_features 4)
  /\ calculate_risk_score (set_liquidation_count best_features 4) = 0.
Proof.
  assert (H : 4 <= liquidation_count (set_liquidation_count best_features 4))
    by (simpl; lia).
  split; [exact H | ].
  exact (four_liquidations_score_zero _ H).
Defined.

Lemma Qgtb_false_iff (a b : Q) : Py.Qgtb a b = false <-> (a <= b)%Q.
Proof.
  unfold Py.Qgtb. rewrite negb_false_iff. apply Qle_bool_iff.
Qed.


Lemma Qgtb_true_iff (a b : Q) : Py.Qgtb a b = true <-> (b < a)%Q.
Proof.
  unfold Py.Qgtb. rewrite negb_true_iff. split.
  - intro H. apply Qnot_le_lt. intro Hle.
    apply Qle_bool_iff in Hle. congruence.
  - intro H. destruct (Qle_bool a b) eqn:E; [ | reflexivity].
    apply Qle_bool_iff in E. exfalso. exact (Qlt_not_le _ _ H E).
Qed.

Lemma Qltb_true_iff (a b : Q) : Py.Qltb a b = true <-> (a < b)%Q.
Proof. apply (Qgtb_true_iff b a). Qed.

(** Case analysis on the seven tests of the explanation generator. *)
Ltac explanation_cases f :=
  unfold generate_risk_explanation, explanations, append_if;
  destruct (liquidation_count f >? 0) eqn:Eliq;
  (destruct (Py.Qgtb (repayment_ratio f) (9 # 10)) eqn:Erep1;
   [ | destruct (Py.Qltb (repayment_ratio f) (5 # 10)) eqn:Erep2]);
  destruct (Py.Qgtb (current_utilization f) (8 # 10)) eqn:Eutil;
  (destruct (Py.Qgtb (activity_frequency f) 2) eqn:Efreq1;
   [ | destruct (Py.Qltb (activity_frequency f) (5 # 10)) eqn:Efreq2]);
  destruct (asset_diversity f >=? 3) eqn:Ediv;
  cbn [app Py.join String.concat String.append].




(** No generated explanation is the text of the fallback row. *)
Lemma explanation_is_not_the_error_text (f : features) (score : Z) :
  generate_risk_explanation f score <> "Error in processing"%string.
Proof.
  explanation_cases f; discriminate.
Qed.

(** X4. The generator and the scorer use the same cut-offs: each clause is in
    the explanation exactly when the scorer applied the adjustment it
    names. *)
Theorem clauses_match_adjustments (f : features) :
  (In "Excellent repayment history"%string (explanations f)
   <-> Adj.repayment f = 100)
  /\ (In "Poor repayment history"%string (explanations f)
      <-> Adj.repayment f = -100)
  /\ (In "High current utilization"%string (explanations f)
      <-> Adj.utilization f = -150)
  /\ (In "Active user"%string (explanations f) <-> Adj.frequency f = 50)
  /\ (In "Inactive user"%string (explanations f) <-> Adj.frequency f = -50)
  /\ (In "Well-diversified portfolio"%string (explanations f)
      <-> Adj.diversification f = 75).
Proof.
  unfold Adj.repayment, Adj.utilization, Adj.frequency, Adj.diversification.
  explanation_cases f;
    repeat match goal with
           | |- context [if ?c then _ else _] => destruct c
           end;
    cbn [In];
    repeat split; intro H; try discriminate H; auto 8;
    repeat match goal with
           | H : _ \/ _ |- _ => destruct H as [H | H]
           end;
    try discriminate H; try contradiction.
Qed.

(** ** More on seeding *)

Section SeedEdges.

Import PyStr.

(** X5. Whenever a seed is read from an identifier it lies in [[0, 2^32)],
    also for a negative literal: [np.random.seed] is never given a value it
    rejects. *)
Theorem wallet_seed_range (w : string) (s : Z) :
  wallet_seed w = Ok s -> 0 <= s < 2 ^ 32.
Proof.
  unfold wallet_seed. destruct (int16 (suffix 8 w)) as [n | e];
    [ | discriminate].
  intro H. injection H as <-. apply Z.mod_pos_bound. reflexivity.
Qed.

Lemma wallet_seed_range_witness :
  wallet_seed "-1234567" = Ok 4275878553
  /\ 0 <= 4275878553 < 2 ^ 32.
Proof.
  assert (H : wallet_seed "-1234567" = Ok 4275878553) by reflexivity.
  split; [exact H | exact (wallet_seed_range _ _ H)].
Defined.

Lemma lstrip_head (c : ascii) (r : list ascii) :
  is_space c = false -> lstrip (c :: r) = c :: r.
Proof. intro H. simpl. rewrite H. reflexivity. Qed.

(** A run of hex digits after one more non-space character keeps both its
    ends under [strip]. *)
Lemma strip_cons_hex (c : ascii) (l : list ascii) :
  is_space c = false -> forallb is_hex l = true ->
  strip (c :: l) = c :: l.
Proof.
  intros Hc Hl. unfold strip.
  assert (Hrev : lstrip (rev (c :: l)) = rev (c :: l)).
  { simpl. destruct (rev l) as [ | y r] eqn:E.
    - simpl. rewrite Hc. reflexivity.
    - simpl. assert (Hy : is_hex y = true).
      { pose proof (forallb_rev _ _ Hl) as Hr. rewrite E in Hr.
        simpl in Hr. apply andb_true_iff in Hr. tauto. }
      destruct (hex_char_plain y Hy) as [Hs _]. rewrite Hs. reflexivity. }
  rewrite Hrev, rev_involutive. apply lstrip_head, Hc.
Qed.

Lemma suffix_of_list (n : nat) (l : list ascii) :
  list_ascii_of_string (suffix n (string_of_list_ascii l))
  = skipn (List.length l - n) l.
Proof.
  unfold suffix. rewrite !list_ascii_of_string_of_list_ascii. reflexivity.
Qed.

Lemma int16_of_list (l : list ascii) :
  int16 (string_of_list_ascii l)
  = match signed16 (strip l) with
    | Some n => Ok n
    | None => Raise ValueError
    end.
Proof.
  unfold int16. rewrite list_ascii_of_string_of_list_ascii. reflexivity.
Qed.

Lemma wallet_seed_of_list (l : list ascii) :
  wallet_seed (string_of_list_ascii l)
  = match signed16 (strip (skipn (List.length l - 8) l)) with
    | Some n => Ok (n mod 2 ^ 32)
    | None => Raise ValueError
    end.
Proof.
  unfold wallet_seed.
  rewrite <- (string_of_list_ascii_of_string
                (suffix 8 (string_of_list_ascii l))).
  rewrite int16_of_list, suffix_of_list.
  destruct (signed16 _); reflexivity.
Qed.

Lemma seven_digit_0x_wallet_raises (l : list ascii) :
  List.length l = 7%nat -> forallb is_hex l = true ->
  wallet_seed (string_of_list_ascii ("0"%char :: "x"%char :: l))
  = Raise ValueError.
Proof.
  intros Hlen Hhex. rewrite wallet_seed_of_list.
  cbn [List.length]. rewrite Hlen. cbn [Nat.sub skipn].
  rewrite strip_cons_hex by (reflexivity || exact Hhex).
  destruct l as [ | y r]; [discriminate Hlen | ].
  reflexivity.
Qed.

(** X6. An identifier made of [0x] and one to six hex digits is shorter than
    the slice; [int()] then sees the prefix and accepts it, and the seed is
    the value of the digits. *)
Theorem short_0x_wallet_seed (l : list ascii) :
  (1 <= List.length l <= 6)%nat -> forallb is_hex l = true ->
  wallet_seed (string_of_list_ascii ("0"%char :: "x"%char :: l))
  = Ok (hex_value l).
Proof.
  intros Hlen Hhex. rewrite wallet_seed_of_list.
  replace (List.length ("0"%char :: "x"%char :: l) - 8)%nat with 0%nat
    by (simpl; lia).
  cbn [skipn].
  assert (Hstrip : strip ("0"%char :: "x"%char :: l)
                   = "0"%char :: "x"%char :: l).
  { unfold strip.
    assert (Hrev : lstrip (rev ("0"%char :: "x"%char :: l))
                   = rev ("0"%char :: "x"%char :: l)).
    { simpl. destruct (rev l) as [ | y r] eqn:E.
      - apply (f_equal (@List.length _)) in E. rewrite length_rev in E.
        simpl in E. lia.
      - simpl. assert (Hy : is_hex y = true).
        { pose proof (forallb_rev _ _ Hhex) as Hr. rewrite E in Hr.
          simpl in Hr. apply andb_true_iff in Hr. tauto. }
        destruct (hex_char_plain y Hy) as [Hs _]. rewrite Hs. reflexivity. }
    rewrite Hrev, rev_involutive. reflexivity. }
  rewrite Hstrip.
  destruct l as [ | u r] eqn:El; [simpl in Hlen; lia | ].
  rewrite <- El in *.
  assert (Hu : Ascii.eqb u "_" = false).
  { rewrite El in Hhex. simpl in Hhex. apply andb_true_iff in Hhex.
    destruct Hhex as [Hu _]. destruct (hex_char_plain u Hu) as (_ & H & _).
    exact H. }
  assert (Hsigned : signed16 ("0"%char :: "x"%char :: l)
                    = Some (hex_value l)).
  { rewrite El. cbn [signed16 unsigned16 Ascii.eqb Bool.eqb andb orb].
    rewrite Hu. unfold body16. rewrite Hu. rewrite <- El.
    apply digits16_hex, Hhex. }
  rewrite Hsigned. f_equal. apply Z.mod_small.
  pose proof (hex_value_range l Hhex) as Hr.
  assert (16 ^ Z.of_nat (List.length l) <= 16 ^ 6)
    by (apply Z.pow_le_mono_r; lia).
  change (2 ^ 32) with 4294967296. change (16 ^ 6) with 16777216 in *. lia.
Qed.

Lemma short_0x_wallet_seed_witness :
  (1 <= List.length (list_ascii_of_string "1234") <= 6)%nat
  /\ forallb is_hex (list_ascii_of_string "1234") = true
  /\ wallet_seed "0x1234" = Ok 4660.
Proof.
  assert (H1 : (1 <= List.length (list_ascii_of_string "1234") <= 6)%nat)
    by (simpl; lia).
  assert (H2 : forallb is_hex (list_ascii_of_string "1234") = true)
    by reflexivity.
  split; [exact H1 | split; [exact H2 | ]].
  exact (short_0x_wallet_seed _ H1 H2).
Defined.

End SeedEdges.

Section SevenDigits.

Context `{NR : NumpyRandom}.

(** X7. An identifier made of [0x] and exactly seven hex digits is sliced to
    [x] and the digits, which [int()] rejects: the wallet gets the fallback
    row. *)
Theorem seven_digit_0x_wallet_gets_the_error_row
  (now : Z) (g : rng) (l : list ascii) :
  List.length l = 7%nat -> forallb PyStr.is_hex l = true ->
  let w := string_of_list_ascii ("0"%char :: "x"%char :: l) in
  wallet_seed w = Raise ValueError
  /\ fst (process_wallet CompoundRiskScorer now w g) = error_row w.
Proof.
  intros Hlen Hhex w.
  pose proof (seven_digit_0x_wallet_raises l Hlen Hhex) as Hseed.
  fold w in Hseed. split; [exact Hseed | ].
  rewrite process_wallet_outcome, try_wallet_outcome. simpl.
  unfold fetch_wallet_transactions.
  rewrite (simulate_raises w now g ValueError Hseed). reflexivity.
Qed.

End SevenDigits.

Lemma seven_digit_0x_wallet_gets_the_error_row_witness :
  let l := list_ascii_of_string "1234567" in
  List.length l = 7%nat
  /\ forallb PyStr.is_hex l = true
  /\ wallet_seed "0x1234567" = Raise ValueError
  /\ fst (@process_wallet Lcg.numpy_random CompoundRiskScorer Lcg.anchor
            "0x1234567" 7)
     = error_row "0x1234567".
Proof.
  intro l.
  assert (H1 : List.length l = 7%nat) by reflexivity.
  assert (H2 : forallb PyStr.is_hex l = true) by reflexivity.
  split; [exact H1 | split; [exact H2 | ]].
  exact (@seven_digit_0x_wallet_gets_the_error_row Lcg.numpy_random
           Lcg.anchor 7 l H1 H2).
Defined.

(** ** The anchor instant *)

Lemma min_list_shift (delta x : Z) (l : list Z) :
  Py.min_list (x + delta) (map (fun t => t + delta) l)
  = Py.min_list x l + delta.
Proof.
  unfold Py.min_list. revert x.
  induction l as [ | y l IH]; intro x; [reflexivity | ].
  simpl. rewrite Z.add_min_distr_r. apply IH.
Qed.

Lemma max_list_shift (delta x : Z) (l : list Z) :
  Py.max_list (x + delta) (map (fun t => t + delta) l)
  = Py.max_list x l + delta.
Proof.
  unfold Py.max_list. revert x.
  induction l as [ | y l IH]; intro x; [reflexivity | ].
  simpl. rewrite Z.add_max_distr_r. apply IH.
Qed.

Lemma filter_map_same {A} (p : A -> bool) (f : A -> A) (l : list A) :
  (forall x, p (f x) = p x) ->
  filter p (map f l) = map f (filter p l).
Proof.
  intro H. induction l as [ | x l IH]; [reflexivity | ].
  simpl. rewrite H. destruct (p x); simpl; rewrite IH; reflexivity.
Qed.

Lemma shifted_timestamps (delta : Z) (txs : list transaction) :
  map tx_timestamp (map (shift_tx delta) txs)
  = map (fun t => t + delta) (map tx_timestamp txs).
Proof. rewrite !map_map. reflexivity. Qed.

Lemma count_kind_shift (delta : Z) (k : tx_kind) (txs : list transaction) :
  count_kind k (map (shift_tx delta) txs) = count_kind k txs.
Proof.
  unfold count_kind, Py.len.
  rewrite filter_map_same by reflexivity. rewrite length_map. reflexivity.
Qed.

Lemma volume_of_shift (delta : Z) (k : tx_kind) (txs : list transaction) :
  volume_of k (map (shift_tx delta) txs) = volume_of k txs.
Proof.
  unfold volume_of.
  rewrite filter_map_same by reflexivity. rewrite map_map. reflexivity.
Qed.

(** Moving every timestamp and the anchor by the same amount leaves every
    feature as it was. *)
Lemma extract_features_shift (delta now : Z) (wd : wallet_data) :
  extract_features (shift_wallet delta wd) (now + delta)
  = extract_features wd now.
Proof.
  destruct wd as [w txs liqs ps fi la].
  unfold extract_features, shift_wallet.
  cbn [transactions liquidations current_positions wallet_address].
  rewrite shifted_timestamps, !count_kind_shift, !volume_of_shift.
  rewrite (filter_map_same (fun tx => is_volatile (tx_asset tx)))
    by reflexivity.
  replace (map tx_asset (map (shift_tx delta) txs)) with (map tx_asset txs)
    by (rewrite map_map; reflexivity).
  unfold Py.len. rewrite !length_map.
  assert (Ht :
    match map (fun t => t + delta) (map tx_timestamp txs) with
    | [] => (0, 999, 0%Q)
    | t :: ts =>
        (days_of (now + delta - Py.min_list t ts),
         days_of (now + delta - Py.max_list t ts),
         (inject_Z (Z.of_nat (List.length txs))
          / inject_Z (Z.max (days_of (now + delta - Py.min_list t ts)) 1)
          * 30)%Q)
    end
    = match map tx_timestamp txs with
      | [] => (0, 999, 0%Q)
      | t :: ts =>
          (days_of (now - Py.min_list t ts),
           days_of (now - Py.max_list t ts),
           (inject_Z (Z.of_nat (List.length txs))
            / inject_Z (Z.max (days_of (now - Py.min_list t ts)) 1)
            * 30)%Q)
      end).
  { destruct (map tx_timestamp txs) as [ | t ts]; [reflexivity | ].
    cbn [map]. rewrite min_list_shift, max_list_shift.
    replace (now + delta - (Py.min_list t ts + delta))
      with (now - Py.min_list t ts) by lia.
    replace (now + delta - (Py.max_list t ts + delta))
      with (now - Py.max_list t ts) by lia.
    reflexivity. }
  assert (Hl :
    match map (shift_liq delta) liqs with
    | [] => (0%Q, 0%Q, 999)
    | l :: ls =>
        ((Py.sum (map liquidated_amount (map (shift_liq delta) liqs))
          / inject_Z (Z.of_nat (List.length liqs)))%Q,
         Py.sum (map liquidated_amount (map (shift_liq delta) liqs)),
         Py.min_list (days_of (now + delta - liq_timestamp l))
           (map (fun q => days_of (now + delta - liq_timestamp q)) ls))
    end
    = match liqs with
      | [] => (0%Q, 0%Q, 999)
      | l :: ls =>
          ((Py.sum (map liquidated_amount liqs)
            / inject_Z (Z.of_nat (List.length liqs)))%Q,
           Py.sum (map liquidated_amount liqs),
           Py.min_list (days_of (now - liq_timestamp l))
             (map (fun q => days_of (now - liq_timestamp q)) ls))
      end).
  { destruct liqs as [ | l ls]; [reflexivity | ].
    cbn [map shift_liq liq_timestamp].
    replace (map liquidated_amount (map (shift_liq delta) ls))
      with (map liquidated_amount ls) by (rewrite map_map; reflexivity).
    rewrite map_map. cbn [shift_liq liq_timestamp liquidated_amount].
    replace (now + delta - (liq_timestamp l + delta))
      with (now - liq_timestamp l) by lia.
    f_equal. f_equal. apply map_ext. intro q. f_equal. lia. }
  rewrite Ht, Hl. reflexivity.
Qed.

Section AnchorIndependence.

Context `{NR : NumpyRandom}.

Lemma gen_transaction_shift (delta now : Z) (g : rng) :
  gen_transaction (now + delta) g
  = (shift_tx delta (fst (gen_transaction now g)),
     snd (gen_transaction now g)).
Proof.
  unfold gen_transaction, bind, ret.
  destruct (np_randint 0 180 g) as [d g1].
  destruct (np_choice _ (Some tx_kind_p) g1) as [ty g2].
  destruct (np_choice _ (Some tx_asset_p) g2) as [a g3].
  destruct (np_lognormal 7 (15 # 10) g3) as [amount g4].
  destruct (gen_tx_hash g4) as [h g5].
  unfold shift_tx. simpl. f_equal. f_equal. lia.
Qed.

Lemma gen_transactions_shift (delta now : Z) (n : nat) (g : rng) :
  gen_transactions n (now + delta) g
  = (map (shift_tx delta) (fst (gen_transactions n now g)),
     snd (gen_transactions n now g)).
Proof.
  revert g. induction n as [ | n IH]; intro g; [reflexivity | ].
  simpl. unfold bind, ret.
  rewrite gen_transaction_shift.
  destruct (gen_transaction now g) as [tx g1]. simpl.
  rewrite IH.
  destruct (gen_transactions n now g1) as [rest g2]. reflexivity.
Qed.

Lemma gen_liquidation_shift (delta now : Z) (g : rng) :
  gen_liquidation (now + delta) g
  = (shift_liq delta (fst (gen_liquidation now g)),
     snd (gen_liquidation now g)).
Proof.
  unfold gen_liquidation, bind, ret.
  destruct (np_randint 0 180 g) as [d g1].
  destruct (np_lognormal 8 1 g1) as [la g2].
  destruct (np_lognormal 8 1 g2) as [cs g3].
  destruct (np_choice _ None g3) as [a g4].
  unfold shift_liq. simpl. f_equal. f_equal. lia.
Qed.

Lemma gen_liquidation_loop_shift (delta now : Z) (n : nat) (g : rng) :
  gen_liquidation_loop n (now + delta) g
  = (map (shift_liq delta) (fst (gen_liquidation_loop n now g)),
     snd (gen_liquidation_loop n now g)).
Proof.
  revert g. induction n as [ | n IH]; intro g; [reflexivity | ].
  simpl. unfold bind, ret.
  rewrite gen_liquidation_shift.
  destruct (gen_liquidation now g) as [l g1]. simpl.
  rewrite IH.
  destruct (gen_liquidation_loop n now g1) as [rest g2]. reflexivity.
Qed.

Lemma gen_liquidations_shift (delta now : Z) (g : rng) :
  gen_liquidations (now + delta) g
  = (map (shift_liq delta) (fst (gen_liquidations now g)),
     snd (gen_liquidations now g)).
Proof.
  unfold gen_liquidations, bind, ret.
  destruct (np_random g) as [r g1].
  destruct (Py.Qltb r (15 # 100)); [ | reflexivity].
  destruct (np_poisson 1 g1) as [k g2].
  apply gen_liquidation_loop_shift.
Qed.

Lemma min_timestamp_shift (delta : Z) (txs : list transaction) :
  min_timestamp (map (shift_tx delta) txs)
  = option_map (fun t => t + delta) (min_timestamp txs).
Proof.
  unfold min_timestamp. rewrite shifted_timestamps.
  destruct (map tx_timestamp txs) as [ | t ts]; [reflexivity | ].
  cbn [map option_map]. rewrite min_list_shift. reflexivity.
Qed.

Lemma max_timestamp_shift (delta : Z) (txs : list transaction) :
  max_timestamp (map (shift_tx delta) txs)
  = option_map (fun t => t + delta) (max_timestamp txs).
Proof.
  unfold max_timestamp. rewrite shifted_timestamps.
  destruct (map tx_timestamp txs) as [ | t ts]; [reflexivity | ].
  cbn [map option_map]. rewrite max_list_shift. reflexivity.
Qed.

(** A later anchor gives the same record, every timestamp later by the
    same amount, and leaves the generator in the same state. *)
Lemma gen_activity_shift (w : string) (delta now : Z) (g : rng) :
  gen_activity w (now + delta) g
  = (shift_wallet delta (fst (gen_activity w now g)),
     snd (gen_activity w now g)).
Proof.
  unfold gen_activity, bind, ret.
  generalize (gen_positions tx_assets). intro positions.
  destruct (np_poisson 15 g) as [n g1].
  rewrite gen_transactions_shift.
  destruct (gen_transactions (Z.to_nat n) now g1) as [txs g2].
  cbn [fst snd].
  rewrite gen_liquidations_shift.
  destruct (gen_liquidations now g2) as [liqs g3].
  cbn [fst snd].
  destruct (positions g3) as [ps g4].
  unfold shift_wallet. cbn [fst snd wallet_address transactions liquidations
    current_positions first_interaction last_interaction].
  rewrite min_timestamp_shift, max_timestamp_shift. reflexivity.
Qed.

Lemma pipeline_features_ignore_anchor (w : string) (now now' : Z) (g : rng) :
  extract_features (fst (gen_activity w now' g)) now'
  = extract_features (fst (gen_activity w now g)) now.
Proof.
  replace now' with (now + (now' - now)) by lia.
  rewrite gen_activity_shift. cbn [fst].
  apply extract_features_shift.
Qed.

(** X8. The rows of a batch do not depend on the anchor instant, nor on the
    state of the generator: every timestamp is a whole number of days before
    the anchor, and the extractor only reads the differences. *)
Theorem batch_rows_ignore_anchor
  (now now' : Z) (wallets : list string) (g g' : rng) :
  fst (process_wallet_list CompoundRiskScorer now wallets g)
  = fst (process_wallet_list CompoundRiskScorer now' wallets g').
Proof.
  rewrite !CompoundRiskScorer_rows. apply map_ext. intro w.
  destruct (wallet_seed w) as [s | e]; [ | reflexivity].
  cbv zeta. rewrite (pipeline_features_ignore_anchor w now' now).
  reflexivity.
Qed.

(** X9. A row of the class as written carries the explanation "Error in
    processing" exactly when the seed could not be read from the wallet
    identifier: no scored wallet gets that text. *)
Theorem error_text_iff_seed_unreadable
  (now : Z) (w : string) (g : rng) :
  r_explanation (fst (process_wallet CompoundRiskScorer now w g))
  = "Error in processing"%string
  <-> exists e, wallet_seed w = Raise e.
Proof.
  rewrite process_wallet_outcome, try_wallet_outcome. simpl.
  unfold fetch_wallet_transactions.
  destruct (wallet_seed w) as [s | e] eqn:E.
  - rewrite (simulate_from_seed w now g s E). simpl. split.
    + intro H. exfalso.
      exact (explanation_is_not_the_error_text _ _ H).
    + intros [e H]. discriminate H.
  - rewrite (simulate_raises w now g e E). simpl. split.
    + intros _. exists e. reflexivity.
    + reflexivity.
Qed.

(** X10. A wallet listed twice in the input gets the same row at both
    positions. *)
Theorem repeated_wallet_same_row
  (now : Z) (wallets : list string) (g : rng) (i j : nat) (w : string) :
  nth_error wallets i = Some w ->
  nth_error wallets j = Some w ->
  nth_error (fst (process_wallet_list CompoundRiskScorer now wallets g)) i
  = nth_error (fst (process_wallet_list CompoundRiskScorer now wallets g)) j.
Proof.
  intros Hi Hj. rewrite CompoundRiskScorer_rows.
  rewrite !nth_error_map, Hi, Hj. reflexivity.
Qed.

End AnchorIndependence.

Lemma repeated_wallet_same_row_witness :
  let ws := ["0x0039f22efb07a647557c7c5d17854cfd6d489ef3"%string;
             "not-a-wallet"%string;
             "0x0039f22efb07a647557c7c5d17854cfd6d489ef3"%string] in
  let rows :=
    fst (@process_wallet_list Lcg.numpy_random CompoundRiskScorer
           Lcg.anchor ws 7) in
  nth_error ws 0 = nth_error ws 2 /\ nth_error rows 0 = nth_error rows 2.
Proof.
  intros ws rows. split; [reflexivity | ].
  apply (@repeated_wallet_same_row Lcg.numpy_random Lcg.anchor ws 7 0 2
           "0x0039f22efb07a647557c7c5d17854cfd6d489ef3"); reflexivity.
Defined.

(** ** Invariants of the extracted features *)

(** The features that do not depend on a timestamp, as the extractor
    computes them. *)
Lemma extract_features_fields (wd : wallet_data) (now : Z) :
  let f := extract_features wd now in
  let txs := transactions wd in
  let den := inject_Z (Z.max (Py.len txs) 1) in
  total_transactions f = Py.len txs
  /\ supply_ratio f = (inject_Z (count_kind supply txs) / den)%Q
  /\ borrow_ratio f = (inject_Z (count_kind borrow txs) / den)%Q
  /\ repay_ratio f = (inject_Z (count_kind repay txs) / den)%Q
  /\ volatile_asset_ratio f
     = (inject_Z (Py.len (filter (fun tx => is_volatile (tx_asset tx)) txs))
        / den)%Q
  /\ asset_diversity f = Py.len (nodup asset_eq_dec (map tx_asset txs))
  /\ total_borrow_volume f = volume_of borrow txs
  /\ total_repay_volume f = volume_of repay txs
  /\ repayment_ratio f
     = (volume_of repay txs / Py.max2 (volume_of borrow txs) 1)%Q
  /\ active_positions f
     = Py.len (filter (fun kv => is_active (snd kv)) (current_positions wd)).
Proof.
  unfold extract_features.
  destruct (map tx_timestamp (transactions wd)), (liquidations wd);
    repeat split; reflexivity.
Qed.

Lemma ratio_bounds (c m : Z) :
  0 <= c <= m -> 1 <= m ->
  (0 <= inject_Z c / inject_Z m)%Q /\ (inject_Z c / inject_Z m <= 1)%Q.
Proof.
  intros Hc Hm.
  assert (Hpos : (0 < inject_Z m)%Q)
    by (change 0%Q with (inject_Z 0); rewrite <- Zlt_Qlt; lia).
  split.
  - apply Qle_shift_div_l; [exact Hpos | ].
    rewrite Qmult_0_l. change 0%Q with (inject_Z 0).
    rewrite <- Zle_Qle. lia.
  - apply Qle_shift_div_r; [exact Hpos | ].
    rewrite Qmult_1_l. rewrite <- Zle_Qle. lia.
Qed.

Lemma filter_length_le {A} (p : A -> bool) (l : list A) :
  (List.length (filter p l) <= List.length l)%nat.
Proof.
  induction l as [ | x l IH]; simpl; [lia | ].
  destruct (p x); simpl; lia.
Qed.

(** Every transaction has exactly one of the four kinds. *)
Lemma count_kind_partition (txs : list transaction) :
  count_kind supply txs + count_kind borrow txs + count_kind repay txs
  + count_kind withdraw txs = Py.len txs.
Proof.
  unfold count_kind, Py.len.
  induction txs as [ | tx txs IH]; [reflexivity | ].
  cbn [filter]. destruct (tx_type tx); cbn [tx_kind_eqb List.length]; lia.
Qed.

Lemma count_kind_range (k : tx_kind) (txs : list transaction) :
  0 <= count_kind k txs <= Py.len txs.
Proof.
  unfold count_kind, Py.len.
  pose proof (filter_length_le (fun tx => tx_kind_eqb (tx_type tx) k) txs).
  lia.
Qed.

(** X11. The supply, borrow, repay and volatile-asset ratios lie between 0 and
    1 for every record, and the counts behind the first three add up to at
    most the number of transactions. *)
Theorem ratio_features_in_unit_interval (wd : wallet_data) (now : Z) :
  let f := extract_features wd now in
  (0 <= supply_ratio f)%Q /\ (supply_ratio f <= 1)%Q
  /\ (0 <= borrow_ratio f)%Q /\ (borrow_ratio f <= 1)%Q
  /\ (0 <= repay_ratio f)%Q /\ (repay_ratio f <= 1)%Q
  /\ (0 <= volatile_asset_ratio f)%Q /\ (volatile_asset_ratio f <= 1)%Q
  /\ count_kind supply (transactions wd)
     + count_kind borrow (transactions wd)
     + count_kind repay (transactions wd) <= total_transactions f.
Proof.
  intro f.
  destruct (extract_features_fields wd now)
    as (Hn & Hs & Hb & Hr & Hv & _).
  fold f in Hn, Hs, Hb, Hr, Hv. rewrite Hn, Hs, Hb, Hr, Hv.
  set (txs := transactions wd).
  pose proof (count_kind_range supply txs) as Rs.
  pose proof (count_kind_range borrow txs) as Rb.
  pose proof (count_kind_range repay txs) as Rr.
  pose proof (count_kind_range withdraw txs) as Rw.
  pose proof (count_kind_partition txs) as Hp.
  pose proof (filter_length_le (fun tx => is_volatile (tx_asset tx)) txs) as Rv.
  assert (Hm : 1 <= Z.max (Py.len txs) 1) by lia.
  destruct (ratio_bounds (count_kind supply txs) (Z.max (Py.len txs) 1)
              ltac:(lia) Hm).
  destruct (ratio_bounds (count_kind borrow txs) (Z.max (Py.len txs) 1)
              ltac:(lia) Hm).
  destruct (ratio_bounds (count_kind repay txs) (Z.max (Py.len txs) 1)
              ltac:(lia) Hm).
  destruct (ratio_bounds
              (Py.len (filter (fun tx => is_volatile (tx_asset tx)) txs))
              (Z.max (Py.len txs) 1)
              ltac:(unfold Py.len in *; lia) Hm).
  repeat (split; [assumption | ]).
  lia.
Qed.

Lemma every_asset_listed (a : asset) : In a tx_assets.
Proof. destruct a; simpl; tauto. Qed.

(** X12. Asset diversity is between 0 and 5, never above the number of
    transactions, and 0 exactly for a record without transactions. *)
Theorem asset_diversity_range (wd : wallet_data) (now : Z) :
  let f := extract_features wd now in
  0 <= asset_diversity f <= 5
  /\ asset_diversity f <= total_transactions f
  /\ (asset_diversity f = 0 <-> transactions wd = []).
Proof.
  intro f.
  destruct (extract_features_fields wd now)
    as (Hn & _ & _ & _ & _ & Hd & _).
  fold f in Hn, Hd. rewrite Hd, Hn. unfold Py.len.
  set (l := map tx_asset (transactions wd)).
  pose proof (NoDup_nodup asset_eq_dec l) as Hnd.
  assert (H5 : (List.length (nodup asset_eq_dec l) <= 5)%nat).
  { apply (NoDup_incl_length Hnd (l' := tx_assets)).
    intros a _. apply every_asset_listed. }
  assert (Hle : (List.length (nodup asset_eq_dec l) <= List.length l)%nat).
  { apply (NoDup_incl_length Hnd). intros a Ha.
    exact (proj1 (nodup_In asset_eq_dec l a) Ha). }
  unfold l in Hle at 2. rewrite length_map in Hle.
  split; [lia | ]. split; [lia | ].
  split.
  - intro H0.
    destruct (transactions wd) as [ | tx txs] eqn:E; [reflexivity | ].
    exfalso.
    assert (Hin : In (tx_asset tx) (nodup asset_eq_dec l))
      by (apply nodup_In; unfold l; try rewrite E; left; reflexivity).
    destruct (nodup asset_eq_dec l); [contradiction | simpl in H0; lia].
  - intro E. unfold l. rewrite E. reflexivity.
Qed.

Lemma min_list_le (x : Z) (l : list Z) :
  Py.min_list x l <= x /\ forall y, In y l -> Py.min_list x l <= y.
Proof.
  unfold Py.min_list. revert x.
  induction l as [ | z l IH]; intro x; [simpl; split; [lia | tauto] | ].
  simpl. destruct (IH (Z.min x z)) as [H1 H2].
  split; [lia | ].
  intros y [<- | Hy]; [lia | apply H2, Hy].
Qed.

Lemma max_list_ge (x : Z) (l : list Z) :
  x <= Py.max_list x l /\ forall y, In y l -> y <= Py.max_list x l.
Proof.
  unfold Py.max_list. revert x.
  induction l as [ | z l IH]; intro x; [simpl; split; [lia | tauto] | ].
  simpl. destruct (IH (Z.max x z)) as [H1 H2].
  split; [lia | ].
  intros y [<- | Hy]; [lia | apply H2, Hy].
Qed.

Lemma min_list_in (x : Z) (l : list Z) : In (Py.min_list x l) (x :: l).
Proof.
  unfold Py.min_list. revert x.
  induction l as [ | z l IH]; intro x; [left; reflexivity | ].
  simpl. destruct (IH (Z.min x z)) as [H | H].
  - destruct (Z.min_spec x z) as [[_ E] | [_ E]]; rewrite E in *; simpl; auto.
  - right; right. exact H.
Qed.

Lemma max_list_in (x : Z) (l : list Z) : In (Py.max_list x l) (x :: l).
Proof.
  unfold Py.max_list. revert x.
  induction l as [ | z l IH]; intro x; [left; reflexivity | ].
  simpl. destruct (IH (Z.max x z)) as [H | H].
  - destruct (Z.max_spec x z) as [[_ E] | [_ E]]; rewrite E in *; simpl; auto.
  - right; right. exact H.
Qed.

Lemma days_of_mono (a b : Z) : a <= b -> days_of a <= days_of b.
Proof. intro H. apply Z.div_le_mono; [reflexivity | exact H]. Qed.

(** The two time features of a record with transactions. *)
Lemma extract_features_times (wd : wallet_data) (now : Z) (t : Z)
  (ts : list Z) :
  map tx_timestamp (transactions wd) = t :: ts ->
  account_age_days (extract_features wd now)
  = days_of (now - Py.min_list t ts)
  /\ days_since_last_activity (extract_features wd now)
     = days_of (now - Py.max_list t ts).
Proof.
  intro E. unfold extract_features. rewrite E.
  destruct (liquidations wd); split; reflexivity.
Qed.

(** X13. For a record with transactions, the days since the last activity are
    at most the account age, and the age in days of every transaction lies
    between the two. *)
Theorem age_covers_every_transaction (wd : wallet_data) (now : Z) :
  transactions wd <> [] ->
  let f := extract_features wd now in
  days_since_last_activity f <= account_age_days f
  /\ forall tx, In tx (transactions wd) ->
       days_since_last_activity f <= days_of (now - tx_timestamp tx)
       /\ days_of (now - tx_timestamp tx) <= account_age_days f.
Proof.
  intros Hne f.
  destruct (map tx_timestamp (transactions wd)) as [ | t ts] eqn:E.
  { destruct (transactions wd); [contradiction | discriminate E]. }
  destruct (extract_features_times wd now t ts E) as [Ha Hl].
  fold f in Ha, Hl. rewrite Ha, Hl.
  destruct (min_list_le t ts) as [Hm1 Hm2].
  destruct (max_list_ge t ts) as [HM1 HM2].
  split; [apply days_of_mono; lia | ].
  intros tx Hin.
  assert (Hts : In (tx_timestamp tx) (t :: ts))
    by (rewrite <- E; apply in_map, Hin).
  assert (Py.min_list t ts <= tx_timestamp tx <= Py.max_list t ts).
  { destruct Hts as [<- | Hts]; [lia | ].
    split; [apply Hm2, Hts | apply HM2, Hts]. }
  split; apply days_of_mono; lia.
Qed.

(** The liquidation features, as the extractor computes them. *)
Lemma extract_features_liquidation_fields (wd : wallet_data) (now : Z) :
  let f := extract_features wd now in
  match liquidations wd with
  | [] =>
      avg_liquidation_amount f = 0%Q
      /\ total_liquidated_value f = 0%Q
      /\ days_since_last_liquidation f = 999
  | l :: ls =>
      avg_liquidation_amount f
      = (Py.sum (map liquidated_amount (l :: ls))
         / inject_Z (Py.len (l :: ls)))%Q
      /\ total_liquidated_value f = Py.sum (map liquidated_amount (l :: ls))
      /\ days_since_last_liquidation f
         = Py.min_list (days_of (now - liq_timestamp l))
             (map (fun q => days_of (now - liq_timestamp q)) ls)
  end.
Proof.
  unfold extract_features.
  destruct (map tx_timestamp (transactions wd)), (liquidations wd);
    repeat split; reflexivity.
Qed.

Lemma age_covers_every_transaction_witness :
  let tx := mkTx (Lcg.anchor - timedelta_days 40) supply ETH 100 "0xaa" in
  let tx' := mkTx (Lcg.anchor - timedelta_days 3) repay DAI 50 "0xbb" in
  let wd := mkWallet "w" [tx; tx'] [] [] None None in
  let f := extract_features wd Lcg.anchor in
  transactions wd <> []
  /\ account_age_days f = 40
  /\ days_since_last_activity f = 3
  /\ days_since_last_activity f <= account_age_days f.
Proof.
  intros tx tx' wd f.
  assert (H : transactions wd <> []) by discriminate.
  split; [exact H | ].
  split; [reflexivity | split; [reflexivity | ]].
  exact (proj1 (age_covers_every_transaction wd Lcg.anchor H)).
Defined.

(** X15. The days since the last liquidation are at most the age in days of
    every liquidation, and equal to that of one of them when there is any. *)
Theorem last_liquidation_is_the_most_recent (wd : wallet_data) (now : Z) :
  let f := extract_features wd now in
  (forall q, In q (liquidations wd) ->
     days_since_last_liquidation f <= days_of (now - liq_timestamp q))
  /\ (liquidations wd <> [] ->
      exists q, In q (liquidations wd)
        /\ days_since_last_liquidation f = days_of (now - liq_timestamp q)).
Proof.
  intro f.
  pose proof (extract_features_liquidation_fields wd now) as H.
  fold f in H.
  destruct (liquidations wd) as [ | l ls].
  - split; [intros q [] | intro Hne; contradiction].
  - destruct H as (_ & _ & ->).
    set (days := fun q => days_of (now - liq_timestamp q)).
    change (days_of (now - liq_timestamp l)) with (days l).
    destruct (min_list_le (days l) (map days ls)) as [H1 H2].
    split.
    + intros q [<- | Hq]; [exact H1 | ].
      apply H2. apply (in_map days), Hq.
    + intros _.
      destruct (min_list_in (days l) (map days ls)) as [E | Hin].
      * exists l. split; [left; reflexivity | symmetry; exact E].
      * apply in_map_iff in Hin. destruct Hin as (q & E & Hq).
        exists q. split; [right; exact Hq | symmetry; exact E].
Qed.

(** A repayment ratio above 0.9 puts the first repayment clause in the
    explanation, one below 0.5 the second. *)
Lemma repayment_clause_present (f : features) :
  (Py.Qgtb (repayment_ratio f) (9 # 10) = true ->
   In "Excellent repayment history"%string (explanations f))
  /\ (Py.Qgtb (repayment_ratio f) (9 # 10) = false ->
      Py.Qltb (repayment_ratio f) (5 # 10) = true ->
      In "Poor repayment history"%string (explanations f)).
Proof.
  unfold explanations, append_if.
  split; [intro H1; rewrite H1 | intros H1 H2; rewrite H1, H2];
    destruct (liquidation_count f >? 0);
    destruct (Py.Qgtb (current_utilization f) (8 # 10));
    (destruct (Py.Qgtb (activity_frequency f) 2);
     [ | destruct (Py.Qltb (activity_frequency f) (5 # 10))]);
    destruct (asset_diversity f >=? 3);
    cbn [app In]; auto 8.
Qed.

(** X16. With no borrow transaction the divisor of the repayment ratio is the
    floor 1, so the ratio is the repaid volume itself: a repaid volume above
    0.9 earns the repayment bonus and the clause "Excellent repayment
    history", one below 0.5 the penalty and "Poor repayment history". *)
Theorem repayment_ratio_without_borrowing (wd : wallet_data) (now : Z) :
  count_kind borrow (transactions wd) = 0 ->
  let f := extract_features wd now in
  (repayment_ratio f == total_repay_volume f)%Q
  /\ ((9 # 10 < total_repay_volume f)%Q ->
      Adj.repayment f = 100
      /\ In "Excellent repayment history"%string (explanations f))
  /\ ((total_repay_volume f < 5 # 10)%Q ->
      Adj.repayment f = -100
      /\ In "Poor repayment history"%string (explanations f)).
Proof.
  intros H0 f.
  destruct (extract_features_fields wd now)
    as (_ & _ & _ & _ & _ & _ & _ & Hr & Hq & _).
  fold f in Hr, Hq.
  assert (Hb : volume_of borrow (transactions wd) = 0%Q).
  { unfold volume_of. unfold count_kind, Py.len in H0.
    destruct (filter _ (transactions wd)); [reflexivity | ].
    simpl in H0. lia. }
  assert (Heq : (repayment_ratio f == total_repay_volume f)%Q).
  { rewrite Hq, Hr, Hb. change (Py.max2 0 1) with 1%Q.
    unfold Qdiv. change (/ 1)%Q with 1%Q. apply Qmult_1_r. }
  destruct (repayment_clause_present f) as [Hex Hpoor].
  split; [exact Heq | split].
  - intro H.
    assert (Hg : Py.Qgtb (repayment_ratio f) (9 # 10) = true)
      by (rewrite (Qgtb_compat _ _ _ Heq); apply Qgtb_true_iff, H).
    split; [unfold Adj.repayment; rewrite Hg; reflexivity | exact (Hex Hg)].
  - intro H.
    assert (Hl : Py.Qltb (repayment_ratio f) (5 # 10) = true)
      by (rewrite (Qltb_compat _ _ _ Heq); apply Qltb_true_iff, H).
    assert (Hg : Py.Qgtb (repayment_ratio f) (9 # 10) = false).
    { rewrite (Qgtb_compat _ _ _ Heq). apply Qgtb_false_iff.
      apply Qlt_le_weak. eapply Qlt_trans; [exact H | reflexivity]. }
    split; [unfold Adj.repayment; rewrite Hg, Hl; reflexivity
           | exact (Hpoor Hg Hl)].
Qed.

Lemma repayment_ratio_without_borrowing_witness :
  let tx := mkTx 0 repay DAI 50 "0xbb" in
  let wd := mkWallet "w" [tx] [] [] None None in
  let f := extract_features wd Lcg.anchor in
  count_kind borrow (transactions wd) = 0
  /\ (9 # 10 < total_repay_volume f)%Q
  /\ (repayment_ratio f == total_repay_volume f)%Q
  /\ Adj.repayment f = 100
  /\ In "Excellent repayment history"%string (explanations f).
Proof.
  intros tx wd f.
  assert (H : count_kind borrow (transactions wd) = 0) by reflexivity.
  assert (Hv : (9 # 10 < total_repay_volume f)%Q) by reflexivity.
  destruct (repayment_ratio_without_borrowing wd Lcg.anchor H)
    as (Heq & Hex & _).
  split; [exact H | split; [exact Hv | split; [exact Heq | exact (Hex Hv)]]].
Defined.

(** ** Invariants of the simulated records *)

Section SimulatedRecords.

Context `{NR : NumpyRandom}.

Lemma gen_positions_keys (assets : list asset) (g : rng) :
  NoDup assets ->
  let ps := fst (gen_positions assets g) in
  NoDup (map fst ps)
  /\ incl (map fst ps) assets
  /\ (List.length ps <= List.length assets)%nat.
Proof.
  revert g. induction assets as [ | a rest IH]; intros g Hnd.
  - simpl. repeat split; [constructor | intros x [] | lia].
  - inversion Hnd as [ | ? ? Hnotin Hrest]; subst.
    cbn [gen_positions]. unfold bind, ret.
    destruct (np_random g) as [r g1].
    destruct (Py.Qltb r (4 # 10)).
    + destruct (gen_amount_or_zero 6 2 (7 # 10) g1) as [s g2].
      destruct (gen_amount_or_zero 5 2 (5 # 10) g2) as [b g3].
      specialize (IH g3 Hrest).
      destruct (gen_positions rest g3) as [ps g4].
      cbn [fst map List.length] in *. destruct IH as (H1 & H2 & H3).
      repeat split.
      * constructor; [ | exact H1]. intro Hin. apply Hnotin, H2, Hin.
      * intros x [<- | Hx]; [left; reflexivity | right; apply H2, Hx].
      * lia.
    + specialize (IH g1 Hrest). cbv zeta in IH.
      destruct (gen_positions rest g1) as [ps g2].
      cbn [fst] in *. destruct IH as (H1 & H2 & H3).
      repeat split; [exact H1 | | simpl; lia].
      intros x Hx. right. apply H2, Hx.
Qed.

(** What [gen_activity] puts in each field of the record. *)
Lemma gen_activity_fields (w : string) (now : Z) (g : rng) :
  let wd := fst (gen_activity w now g) in
  exists n g1 g2 g3,
    transactions wd = fst (gen_transactions n now g1)
    /\ liquidations wd = fst (gen_liquidations now g2)
    /\ current_positions wd = fst (gen_positions tx_assets g3)
    /\ wallet_address wd = w
    /\ first_interaction wd = min_timestamp (transactions wd)
    /\ last_interaction wd = max_timestamp (transactions wd).
Proof.
  unfold gen_activity, bind, ret.
  generalize (gen_positions tx_assets). intro positions.
  destruct (np_poisson 15 g) as [n g1].
  destruct (gen_transactions (Z.to_nat n) now g1) as [txs g2] eqn:Et.
  destruct (gen_liquidations now g2) as [liqs g3] eqn:El.
  destruct (positions g3) as [ps g4] eqn:Ep.
  cbn [fst]. exists (Z.to_nat n), g1, g2, g3.
  rewrite Et, El, Ep. repeat split.
Qed.

(** X17. A simulated record holds at most one position per asset, so at most
    five, and its count of active positions is between 0 and 5. *)
Theorem simulated_positions_have_distinct_assets
  (w : string) (now : Z) (g : rng) :
  let wd := fst (gen_activity w now g) in
  NoDup (map fst (current_positions wd))
  /\ (List.length (current_positions wd) <= 5)%nat
  /\ 0 <= active_positions (extract_features wd now) <= 5.
Proof.
  intro wd.
  destruct (gen_activity_fields w now g) as (n & g1 & g2 & g3 & _ & _ & Hp & _).
  fold wd in Hp.
  assert (Hnd : NoDup tx_assets).
  { unfold tx_assets. repeat constructor; simpl; intuition discriminate. }
  destruct (gen_positions_keys tx_assets g3 Hnd) as (H1 & _ & H3).
  rewrite <- Hp in H1, H3. change (List.length tx_assets) with 5%nat in H3.
  split; [exact H1 | ]. split; [exact H3 | ].
  destruct (extract_features_fields wd now)
    as (_ & _ & _ & _ & _ & _ & _ & _ & _ & Ha).
  rewrite Ha. unfold Py.len.
  pose proof (filter_length_le (fun kv => is_active (snd kv))
                (current_positions wd)).
  lia.
Qed.

(** X18. In a simulated record, the first and last interaction are both
    absent exactly when there is no transaction; otherwise they are the
    timestamps of two transactions and bracket every timestamp. *)
Theorem interaction_bounds_bracket_the_transactions
  (w : string) (now : Z) (g : rng) :
  let wd := fst (gen_activity w now g) in
  match first_interaction wd, last_interaction wd with
  | Some a, Some b =>
      transactions wd <> []
      /\ (exists tx, In tx (transactions wd) /\ tx_timestamp tx = a)
      /\ (exists tx, In tx (transactions wd) /\ tx_timestamp tx = b)
      /\ forall tx, In tx (transactions wd) -> a <= tx_timestamp tx <= b
  | None, None => transactions wd = []
  | _, _ => False
  end.
Proof.
  intro wd.
  destruct (gen_activity_fields w now g)
    as (n & g1 & g2 & g3 & _ & _ & _ & _ & Hf & Hl).
  fold wd in Hf, Hl. rewrite Hf, Hl.
  unfold min_timestamp, max_timestamp.
  destruct (transactions wd) as [ | tx0 txs] eqn:E; [reflexivity | ].
  cbn [map].
  set (t := tx_timestamp tx0). set (ts := map tx_timestamp txs).
  destruct (min_list_le t ts) as [Hm1 Hm2].
  destruct (max_list_ge t ts) as [HM1 HM2].
  split; [discriminate | ].
  assert (Hpick : forall x, In x (t :: ts) ->
            exists tx, In tx (tx0 :: txs) /\ tx_timestamp tx = x).
  { intros x [<- | Hx].
    - exists tx0. split; [left; reflexivity | reflexivity].
    - apply in_map_iff in Hx. destruct Hx as (tx & <- & Hin).
      exists tx. split; [right; exact Hin | reflexivity]. }
  split; [apply Hpick, min_list_in | ].
  split; [apply Hpick, max_list_in | ].
  intros tx [<- | Hin]; [fold t; lia | ].
  assert (In (tx_timestamp tx) ts) by (apply in_map, Hin).
  split; [apply Hm2 | apply HM2]; assumption.
Qed.

Section Window.

Hypothesis randint_ok : randint_in_range.

Lemma days_of_window (now t : Z) :
  in_window now t -> 0 <= days_of (now - t) <= 179.
Proof.
  intros (d & Hd & ->). unfold days_of, timedelta_days.
  replace (now - (now - d * day_us)) with (d * day_us) by lia.
  rewrite Z.div_mul by discriminate. lia.
Qed.

Lemma gen_transaction_window (now : Z) (g : rng) :
  in_window now (tx_timestamp (fst (gen_transaction now g))).
Proof.
  unfold gen_transaction, bind, ret.
  pose proof (randint_ok 0 180 g ltac:(lia)) as Hd.
  destruct (np_randint 0 180 g) as [d g1].
  destruct (np_choice _ (Some tx_kind_p) g1) as [ty g2].
  destruct (np_choice _ (Some tx_asset_p) g2) as [a g3].
  destruct (np_lognormal 7 (15 # 10) g3) as [amount g4].
  destruct (gen_tx_hash g4) as [h g5].
  cbn [fst tx_timestamp] in *. exists d. split; [exact Hd | reflexivity].
Qed.

Lemma gen_transactions_window (now : Z) (n : nat) (g : rng) :
  Forall (fun tx => in_window now (tx_timestamp tx))
    (fst (gen_transactions n now g)).
Proof.
  revert g. induction n as [ | n IH]; intro g; [constructor | ].
  cbn [gen_transactions]. unfold bind, ret.
  pose proof (gen_transaction_window now g) as Htx.
  destruct (gen_transaction now g) as [tx g1].
  specialize (IH g1).
  destruct (gen_transactions n now g1) as [rest g2].
  cbn [fst] in *. constructor; assumption.
Qed.

Lemma gen_liquidation_window (now : Z) (g : rng) :
  in_window now (liq_timestamp (fst (gen_liquidation now g))).
Proof.
  unfold gen_liquidation, bind, ret.
  pose proof (randint_ok 0 180 g ltac:(lia)) as Hd.
  destruct (np_randint 0 180 g) as [d g1].
  destruct (np_lognormal 8 1 g1) as [la g2].
  destruct (np_lognormal 8 1 g2) as [cs g3].
  destruct (np_choice _ None g3) as [a g4].
  cbn [fst liq_timestamp] in *. exists d. split; [exact Hd | reflexivity].
Qed.

Lemma gen_liquidation_loop_window (now : Z) (n : nat) (g : rng) :
  Forall (fun q => in_window now (liq_timestamp q))
    (fst (gen_liquidation_loop n now g)).
Proof.
  revert g. induction n as [ | n IH]; intro g; [constructor | ].
  cbn [gen_liquidation_loop]. unfold bind, ret.
  pose proof (gen_liquidation_window now g) as Hq.
  destruct (gen_liquidation now g) as [q g1].
  specialize (IH g1).
  destruct (gen_liquidation_loop n now g1) as [rest g2].
  cbn [fst] in *. constructor; assumption.
Qed.

Lemma gen_liquidations_window (now : Z) (g : rng) :
  Forall (fun q => in_window now (liq_timestamp q))
    (fst (gen_liquidations now g)).
Proof.
  unfold gen_liquidations, bind, ret.
  destruct (np_random g) as [r g1].
  destruct (Py.Qltb r (15 # 100)); [ | constructor].
  destruct (np_poisson 1 g1) as [k g2].
  apply gen_liquidation_loop_window.
Qed.

Lemma gen_activity_window (w : string) (now : Z) (g : rng) :
  let wd := fst (gen_activity w now g) in
  (forall tx, In tx (transactions wd) -> in_window now (tx_timestamp tx))
  /\ (forall q, In q (liquidations wd) -> in_window now (liq_timestamp q)).
Proof.
  intro wd.
  destruct (gen_activity_fields w now g)
    as (n & g1 & g2 & g3 & Ht & Hl & _).
  fold wd in Ht, Hl. rewrite Ht, Hl.
  split; apply Forall_forall;
    [apply gen_transactions_window | apply gen_liquidations_window].
Qed.

Lemma simulated_account_age_range (w : string) (now : Z) (g : rng) :
  0 <= account_age_days (extract_features (fst (gen_activity w now g)) now)
    <= 179.
Proof.
  destruct (gen_activity_window w now g) as [Htx _].
  set (wd := fst (gen_activity w now g)) in *.
  destruct (map tx_timestamp (transactions wd)) as [ | t ts] eqn:E.
  - unfold extract_features. rewrite E.
    destruct (liquidations wd); simpl; lia.
  - destruct (extract_features_times wd now t ts E) as [Ha _]. rewrite Ha.
    apply days_of_window.
    assert (Hin : In (Py.min_list t ts) (map tx_timestamp (transactions wd)))
      by (rewrite E; apply min_list_in).
    apply in_map_iff in Hin. destruct Hin as (tx & <- & Hin).
    apply Htx, Hin.
Qed.

(** X19. When [randint] keeps its contract, every simulated transaction and
    liquidation lies a whole number of days, at most 179, before the anchor;
    so the account age is between 0 and 179 days, and so are the days since
    the last activity and since the last liquidation when there is one. *)
Theorem simulated_timestamps_in_window (w : string) (now : Z) (g : rng) :
  let wd := fst (gen_activity w now g) in
  let f := extract_features wd now in
  (forall tx, In tx (transactions wd) -> in_window now (tx_timestamp tx))
  /\ (forall q, In q (liquidations wd) -> in_window now (liq_timestamp q))
  /\ 0 <= account_age_days f <= 179
  /\ (transactions wd <> [] -> 0 <= days_since_last_activity f <= 179)
  /\ (liquidations wd <> [] -> 0 <= days_since_last_liquidation f <= 179).
Proof.
  intros wd f.
  destruct (gen_activity_window w now g) as [Htx Hlq]. fold wd in Htx, Hlq.
  split; [exact Htx | ]. split; [exact Hlq | ].
  split; [apply simulated_account_age_range | ].
  split.
  - intro Hne.
    destruct (map tx_timestamp (transactions wd)) as [ | t ts] eqn:E.
    + destruct (transactions wd); [contradiction | discriminate E].
    + destruct (extract_features_times wd now t ts E) as [_ Hla].
      fold f in Hla. rewrite Hla.
      apply days_of_window.
      assert (Hin : In (Py.max_list t ts)
                      (map tx_timestamp (transactions wd)))
        by (rewrite E; apply max_list_in).
      apply in_map_iff in Hin. destruct Hin as (tx & <- & Hin).
      apply Htx, Hin.
  - intro Hne.
    pose proof (extract_features_liquidation_fields wd now) as H.
    fold f in H.
    destruct (liquidations wd) as [ | l ls]; [contradiction | ].
    destruct H as (_ & _ & ->).
    set (days := fun q => days_of (now - liq_timestamp q)).
    change (days_of (now - liq_timestamp l)) with (days l).
    destruct (min_list_in (days l) (map days ls)) as [<- | Hin].
    + apply days_of_window, Hlq. left. reflexivity.
    + apply in_map_iff in Hin. destruct Hin as (q & <- & Hq).
      apply days_of_window, Hlq. right. exact Hq.
Qed.

(** X20. When [randint] keeps its contract, no simulated wallet is older than
    365 days: the account-age bonus is never earned and the score of a
    simulated wallet is at most 750. *)
Theorem simulated_score_at_most_750 (w : string) (now : Z) (g : rng) :
  let f := extract_features (fst (gen_activity w now g)) now in
  Adj.account_age f <= 0 /\ calculate_risk_score f <= 750.
Proof.
  intro f.
  pose proof (simulated_account_age_range w now g) as Hage. fold f in Hage.
  assert (Ha : Adj.account_age f <= 0).
  { unfold Adj.account_age.
    destruct (account_age_days f >? 365) eqn:E; [lia | ].
    destruct (account_age_days f <? 30); lia. }
  split; [exact Ha | ].
  destruct (extract_features_liquidation_count
              (fst (gen_activity w now g)) now) as [_ Hk].
  fold f in Hk.
  pose proof (adjustment_ranges f) as Hr.
  unfold calculate_risk_score. rewrite base_score_split.
  unfold Adj.total. lia.
Qed.

End Window.

End SimulatedRecords.

Lemma Lcg_randint_in_range : @randint_in_range Lcg.numpy_random.
Proof.
  intros lo hi g H. simpl.
  pose proof (Z.mod_pos_bound g (hi - lo) ltac:(lia)). lia.
Qed.

Lemma simulated_timestamps_in_window_witness :
  let wd := fst (@gen_activity Lcg.numpy_random "w" Lcg.anchor 1833475827) in
  @randint_in_range Lcg.numpy_random
  /\ List.length (transactions wd) = 3%nat
  /\ (forall tx, In tx (transactions wd) ->
        in_window Lcg.anchor (tx_timestamp tx))
  /\ 0 <= account_age_days (extract_features wd Lcg.anchor) <= 179.
Proof.
  intro wd.
  destruct (@simulated_timestamps_in_window Lcg.numpy_random
              Lcg_randint_in_range "w" Lcg.anchor 1833475827)
    as (Htx & _ & Hage & _).
  split; [exact Lcg_randint_in_range | ].
  split; [reflexivity | ].
  split; [exact Htx | exact Hage].
Defined.

Lemma simulated_score_at_most_750_witness :
  let f :=
    extract_features
      (fst (@gen_activity Lcg.numpy_random "w" Lcg.anchor 1833475827))
      Lcg.anchor in
  @randint_in_range Lcg.numpy_random
  /\ Adj.account_age f <= 0
  /\ calculate_risk_score f <= 750.
Proof.
  intro f.
  split; [exact Lcg_randint_in_range | ].
  exact (@simulated_score_at_most_750 Lcg.numpy_random
           Lcg_randint_in_range "w" Lcg.anchor 1833475827).
Defined.

(** ** The output files and the summary *)

Section OutputProperties.

Import Output.

Lemma list_ascii_of_string_app (s1 s2 : string) :
  list_ascii_of_string (s1 ++ s2)
  = list_ascii_of_string s1 ++ list_ascii_of_string s2.
Proof. induction s1 as [ | c s1 IH]; simpl; congruence. Qed.

Lemma string_of_list_ascii_app (l1 l2 : list ascii) :
  string_of_list_ascii (l1 ++ l2)
  = (string_of_list_ascii l1 ++ string_of_list_ascii l2)%string.
Proof. induction l1 as [ | c l1 IH]; simpl; congruence. Qed.

Lemma replace_from_no_occurrence (old new l : list ascii) :
  occurs old l = false -> replace_from old new l 0 = l.
Proof.
  induction l as [ | c r IH]; [reflexivity | ].
  cbn [occurs replace_from]. intro H.
  apply orb_false_iff in H. destruct H as [Hs Ho].
  rewrite Hs, (IH Ho). reflexivity.
Qed.

Lemma replace_from_stem (new stem : list ascii) :
  forallb (fun c => negb (Ascii.eqb c ".")) stem = true ->
  replace_from (list_ascii_of_string ".csv") new
    (stem ++ list_ascii_of_string ".csv") 0
  = stem ++ new.
Proof.
  induction stem as [ | c stem IH]; intro H.
  - simpl. apply app_nil_r.
  - cbn [forallb] in H. apply andb_true_iff in H. destruct H as [Hc Hs].
    apply negb_true_iff in Hc.
    cbn [app replace_from]. 
    assert (Hno : starts_with (list_ascii_of_string ".csv")
                    (c :: stem ++ list_ascii_of_string ".csv") = false).
    { cbn [list_ascii_of_string starts_with].
      rewrite Ascii.eqb_sym, Hc. reflexivity. }
    rewrite Hno, (IH Hs). reflexivity.
Qed.

(** X21. For an output path that is a dot-free stem followed by [.csv], the
    detailed table goes to the stem followed by [_detailed.csv], a different
    path. *)
Theorem detailed_path_of_csv_name (stem : string) :
  forallb (fun c => negb (Ascii.eqb c "."))
    (list_ascii_of_string stem) = true ->
  detailed_path (stem ++ ".csv") = (stem ++ "_detailed.csv")%string
  /\ detailed_path (stem ++ ".csv") <> (stem ++ ".csv")%string.
Proof.
  intro H.
  assert (E : detailed_path (stem ++ ".csv")
              = (stem ++ "_detailed.csv")%string).
  { unfold detailed_path, replace.
    rewrite list_ascii_of_string_app, (replace_from_stem _ _ H).
    rewrite string_of_list_ascii_app, string_of_list_ascii_of_string.
    reflexivity. }
  split; [exact E | ].
  rewrite E. clear. induction stem as [ | c stem IH]; simpl.
  - discriminate.
  - intro Heq. injection Heq as Heq. exact (IH Heq).
Qed.

Lemma detailed_path_without_csv (output_file : string) :
  occurs (list_ascii_of_string ".csv") (list_ascii_of_string output_file)
  = false ->
  detailed_path output_file = output_file.
Proof.
  intro H. unfold detailed_path, replace.
  rewrite (replace_from_no_occurrence _ _ _ H).
  apply string_of_list_ascii_of_string.
Qed.

Lemma detailed_path_of_csv_name_witness :
  forallb (fun c => negb (Ascii.eqb c "."))
    (list_ascii_of_string "output/wallet_scores") = true
  /\ detailed_path "output/wallet_scores.csv"
     = "output/wallet_scores_detailed.csv"%string.
Proof.
  assert (H : forallb (fun c => negb (Ascii.eqb c "."))
                (list_ascii_of_string "output/wallet_scores") = true)
    by reflexivity.
  split; [exact H | ].
  exact (proj1 (detailed_path_of_csv_name "output/wallet_scores" H)).
Defined.

Lemma to_csv_same (t : table) (path : string) (fs : files) :
  to_csv t path fs path = Some t.
Proof. unfold to_csv. rewrite String.eqb_refl. reflexivity. Qed.

Lemma to_csv_other (t : table) (path p : string) (fs : files) :
  p <> path -> to_csv t path fs p = fs p.
Proof.
  intro H. unfold to_csv.
  destruct (String.eqb p path) eqn:E; [ | reflexivity].
  apply String.eqb_eq in E. contradiction.
Qed.

(** X22. With at least one row and two different paths, the simple table is
    at the output path, the detailed table at the detailed path, and no
    other path is touched. *)
Theorem save_results_writes_both_tables
  (output_file : string) (results : list row) (fs : files) :
  results <> [] ->
  detailed_path output_file <> output_file ->
  let out := save_results output_file results fs in
  fst out = Ok tt
  /\ snd out output_file = Some (Simple (simple_results results))
  /\ snd out (detailed_path output_file) = Some (Detailed results)
  /\ forall p, p <> output_file -> p <> detailed_path output_file ->
       snd out p = fs p.
Proof.
  intros Hne Hd. unfold save_results.
  destruct results as [ | r rs]; [contradiction | ].
  cbn [fst snd]. split; [reflexivity | ].
  split; [apply to_csv_same | ].
  split.
  - rewrite to_csv_other by exact Hd. apply to_csv_same.
  - intros p H1 H2. rewrite !to_csv_other by assumption. reflexivity.
Qed.

(** X23. When the output path does not contain [.csv], both tables go to the
    same path: the simple table overwrites the detailed one, which is then
    in no file that the call wrote. *)
Theorem save_results_same_path_loses_details
  (output_file : string) (results : list row) (fs : files) :
  results <> [] ->
  occurs (list_ascii_of_string ".csv") (list_ascii_of_string output_file)
  = false ->
  let out := save_results output_file results fs in
  snd out output_file = Some (Simple (simple_results results))
  /\ forall p, snd out p = Some (Detailed results) ->
       fs p = Some (Detailed results).
Proof.
  intros Hne Hno. unfold save_results.
  rewrite (detailed_path_without_csv _ Hno).
  destruct results as [ | r rs]; [contradiction | ].
  cbn [fst snd]. split; [apply to_csv_same | ].
  intros p Hp. unfold to_csv in *.
  destruct (String.eqb p output_file); [discriminate Hp | exact Hp].
Qed.

Lemma save_results_writes_both_tables_witness :
  let results := [error_row "not-a-wallet"] in
  let out := save_results "scores.csv" results (fun _ => None) in
  results <> []
  /\ detailed_path "scores.csv" <> "scores.csv"%string
  /\ snd out "scores.csv"%string
     = Some (Simple [("not-a-wallet"%string, 500)])
  /\ snd out "scores_detailed.csv"%string = Some (Detailed results).
Proof.
  intros results out.
  assert (H1 : results <> []) by discriminate.
  assert (H2 : detailed_path "scores.csv" <> "scores.csv"%string)
    by discriminate.
  destruct (save_results_writes_both_tables "scores.csv" results
              (fun _ => None) H1 H2) as (_ & Hs & Hd & _).
  split; [exact H1 | split; [exact H2 | split; [exact Hs | exact Hd]]].
Defined.

Lemma save_results_same_path_loses_details_witness :
  let results := [error_row "not-a-wallet"] in
  let out := save_results "scores" results (fun _ => None) in
  results <> []
  /\ occurs (list_ascii_of_string ".csv") (list_ascii_of_string "scores")
     = false
  /\ snd out "scores"%string = Some (Simple [("not-a-wallet"%string, 500)]).
Proof.
  intros results out.
  assert (H1 : results <> []) by discriminate.
  assert (H2 : occurs (list_ascii_of_string ".csv")
                 (list_ascii_of_string "scores") = false) by reflexivity.
  split; [exact H1 | split; [exact H2 | ]].
  exact (proj1 (save_results_same_path_loses_details "scores" results
                  (fun _ => None) H1 H2)).
Defined.

End OutputProperties.

Section WholeBatch.

Context `{NR : NumpyRandom}.

Lemma process_wallet_list_wallet_ids
  (self : scorer) (now : Z) (wallets : list string) (g : rng) :
  map r_wallet_id (fst (process_wallet_list self now wallets g)) = wallets.
Proof.
  revert g. induction wallets as [ | w ws IH]; intro g; [reflexivity | ].
  cbn [process_wallet_list].
  pose proof (process_wallet_wallet_id self now w g) as Hw.
  destruct (process_wallet self now w g) as [rw g1].
  specialize (IH g1).
  destruct (process_wallet_list self now ws g1) as [rws g2].
  cbn [fst map] in *. rewrite Hw, IH. reflexivity.
Qed.

Lemma to_csv_or_raise_writable (writable : string -> bool)
  (t : Output.table) (path : string) (fs : Output.files) :
  writable path = true ->
  to_csv_or_raise writable t path fs = (Ok tt, Output.to_csv t path fs).
Proof. intro H. unfold to_csv_or_raise. rewrite H. reflexivity. Qed.

(** When both paths can be written, the two writes are those of
    [Output.save_results]. *)
Lemma save_results_or_raise_writable (writable : string -> bool)
  (output_file : string) (results : list row) (fs : Output.files) :
  writable (Output.detailed_path output_file) = true ->
  writable output_file = true ->
  save_results_or_raise writable output_file results fs
  = Output.save_results output_file results fs.
Proof.
  intros Hd Ho. unfold save_results_or_raise, Output.save_results.
  rewrite (to_csv_or_raise_writable _ _ _ _ Hd).
  destruct results; [reflexivity | ].
  apply to_csv_or_raise_writable, Ho.
Qed.

(** X24. For any scorer, the batch returns its rows exactly when the list of
    wallets is not empty and both output paths can be written: then there
    is one row per wallet and the simple table lists the wallets in input
    order. It raises only for an empty list or a path that cannot be
    written; a wallet whose stages raise never makes it fail. *)
Theorem batch_fails_only_on_empty_list_or_write_error
  (self : scorer) (writable : string -> bool) (now : Z)
  (wallets : list string) (output_file : string)
  (g : rng) (fs : Output.files) :
  let out :=
    process_wallet_list_and_save self writable now wallets output_file g fs in
  match fst (fst out) with
  | Ok results =>
      wallets <> []
      /\ writable (Output.detailed_path output_file) = true
      /\ writable output_file = true
      /\ results = fst (process_wallet_list self now wallets g)
      /\ map r_wallet_id results = wallets
      /\ exists simple,
           snd out output_file = Some (Output.Simple simple)
           /\ map fst simple = wallets
  | Raise _ =>
      wallets = []
      \/ writable (Output.detailed_path output_file) = false
      \/ writable output_file = false
  end.
Proof.
  unfold process_wallet_list_and_save.
  pose proof (process_wallet_list_wallet_ids self now wallets g) as Hids.
  destruct (process_wallet_list self now wallets g) as [results g1].
  cbn [fst] in Hids.
  unfold save_results_or_raise, to_csv_or_raise.
  destruct (writable (Output.detailed_path output_file)) eqn:Hd;
    [ | cbn [fst snd]; right; left; reflexivity].
  destruct results as [ | r rs];
    [cbn [fst snd]; left; symmetry; exact Hids | ].
  destruct (writable output_file) eqn:Ho;
    [ | cbn [fst snd]; right; right; reflexivity].
  cbn [fst snd].
  split; [intro E; rewrite E in Hids; discriminate Hids | ].
  repeat (split; [reflexivity | ]). split; [exact Hids | ].
  eexists. split; [apply to_csv_same | ].
  unfold Output.simple_results. rewrite map_map. exact Hids.
Qed.

End WholeBatch.

Section SummaryProperties.

Import Summary.

(** X25. The three risk bands of the summary count every row once, and a
    fallback row always counts as medium risk. *)
Theorem risk_bands_partition (results : list row) :
  high_risk results + medium_risk results + low_risk results
  = Py.len results
  /\ forall w, medium_risk (error_row w :: results)
               = 1 + medium_risk results.
Proof.
  split.
  - unfold high_risk, medium_risk, low_risk, count, Py.len.
    induction results as [ | r rs IH]; [reflexivity | ].
    cbn [filter].
    destruct (r_score r <? 300) eqn:E1, (r_score r >=? 300) eqn:E2,
      (r_score r <? 700) eqn:E3, (r_score r >=? 700) eqn:E4;
      cbn [andb List.length]; lia.
  - intro w. unfold medium_risk, count, Py.len.
    cbn [filter error_row r_score]. 
    change ((500 >=? 300) && (500 <? 700)) with true.
    cbn [List.length]. lia.
Qed.

End SummaryProperties.
